(** * Servitor: a shallow embedding of the ASGI toolkit

    The development follows the repository file by file:
    [connection.py] (the [Connection] object and its request / response
    operations), [response.py] ([HttpResponse], [JsonResponse]),
    [routing.py] ([Router]) and [application.py] ([Servitor]).

    Conventions of the embedding.
    - A Python [str] is a Rocq [string] holding the UTF-8 encoding of the
      text, so [str.encode()] is the identity on the underlying bytes,
      [str.encode("ascii")] succeeds exactly when every byte is below 128,
      and splitting or replacing on ASCII characters acts bytewise.
    - A Python [bytes] is a [list byte].
    - [await] is sequential composition: every coroutine is a state
      transformer over a [World] made of the [Connection] object, the
      messages handed to the ASGI [send] callable, the messages the ASGI
      [receive] callable still has to deliver, and the heap of mutable
      header dictionaries.
    - A raised exception ends the computation and keeps the state reached
      so far; awaiting [receive] with nothing left to deliver is [Blocked]. *)

From Stdlib Require Import ZArith List String Ascii Bool Lia.
From Stdlib.Strings Require Import Byte.
From Stdlib Require Import Decimal DecimalString.
From stdpp Require Import base option list gmap strings.

Local Open Scope string_scope.
Local Open Scope Z_scope.
Local Open Scope list_scope.

(** ** Python values used by the code *)

Definition bytes := list byte.

(** [data: Union[bytes, str]], with [None] for the [Optional] body of
    [HttpResponse]. *)
Inductive pydata :=
| PyNone
| PyStr (s : string)
| PyBytes (b : bytes).

Inductive exn :=
| ValueError (msg : string)
| TypeError (msg : string)
| KeyError (key : string)
| NotImplementedError
| UnicodeDecodeError
| UnicodeEncodeError
| OtherError (msg : string).

(** [s.encode()]: the UTF-8 bytes of the text. *)
Definition str_encode (s : string) : bytes := list_byte_of_string s.

Definition is_ascii_byte (b : byte) : bool := (Byte.to_N b <? 128)%N.

(** [s.encode("ascii")]; [None] stands for [UnicodeEncodeError]. *)
Definition encode_ascii (s : string) : option bytes :=
  let b := list_byte_of_string s in
  if forallb is_ascii_byte b then Some b else None.

(** [b.decode("ascii")]; [None] stands for [UnicodeDecodeError]. *)
Definition decode_ascii (b : bytes) : option string :=
  if forallb is_ascii_byte b then Some (string_of_list_byte b) else None.

(** [str(n)] for a length. *)
Definition str_of_nat (n : nat) : string :=
  NilEmpty.string_of_uint (Nat.to_uint n).

(** [str.lower()] on ASCII letters; other bytes are left alone. *)
Definition ascii_lower (a : ascii) : ascii :=
  let n := nat_of_ascii a in
  if ((65 <=? n) && (n <=? 90))%nat then ascii_of_nat (n + 32) else a.

Fixpoint str_lower (s : string) : string :=
  match s with
  | EmptyString => EmptyString
  | String a s' => String (ascii_lower a) (str_lower s')
  end.

(** ** werkzeug [Headers]: an ordered multi-map with case-insensitive lookup *)

Definition Headers := list (string * string).

(** [Headers.add(key, value)] appends. (The library also rejects a value
    that holds a newline; the embedding leaves that check out.) *)
Definition Headers_add (k v : string) (h : Headers) : Headers := h ++ [(k, v)].

(** [Headers.get(key)]: the first value whose key equals [key] ignoring case. *)
Fixpoint Headers_get (key : string) (h : Headers) : option string :=
  match h with
  | [] => None
  | (k, v) :: h' =>
      if String.eqb (str_lower k) (str_lower key) then Some v
      else Headers_get key h'
  end.

(** A Python [dict] with string keys: insertion ordered, keys unique. *)
Definition dict := list (string * string).

(** [d[k] = v]: an existing key keeps its position. *)
Fixpoint dict_setitem (k v : string) (d : dict) : dict :=
  match d with
  | [] => [(k, v)]
  | (k', v') :: d' =>
      if String.eqb k k' then (k', v) :: d' else (k', v') :: dict_setitem k v d'
  end.

Fixpoint dict_get (k : string) (d : dict) : option string :=
  match d with
  | [] => None
  | (k', v') :: d' => if String.eqb k k' then Some v' else dict_get k d'
  end.

(** ** ASGI messages *)

(** Messages passed to the ASGI [send] callable. *)
Inductive asgi_out :=
| http_response_start (status : Z) (headers : list (bytes * bytes))
| http_response_body (body : bytes) (more_body : bool).

(** The ["body"] entry of an incoming message: missing, a byte string, or
    a value of another type. *)
Inductive body_field :=
| BodyAbsent
| BodyBytes (b : bytes)
| BodyOther.

(** Messages delivered by the ASGI [receive] callable. [more_body] is
    [None] when the key is missing. *)
Inductive asgi_in :=
| http_request (body : body_field) (more_body : option bool)
| http_disconnect
| other_message (type : string).

(** ** The scope record *)

Record Scope := {
  scope_type : option string;
  scope_method : option string;
  scope_path : option string;
  scope_root_path : option string;
  scope_scheme : option string;
  scope_query_string : bytes;
  scope_headers : list (bytes * bytes)
}.

Inductive ConnectionType := HTTP | WebSocket.

(** ** connection.py: class [Connection] *)

Record Connection := {
  scope : Scope;
  started : bool;
  finished : bool;
  resp_headers : Headers;
  resp_cookies : dict;
  resp_status_code : option Z;
  http_body : bytes;
  http_has_more_body : bool;
  http_received_body_length : nat
}.

(** [Connection.__init__] *)
Definition Connection_init (sc : Scope) : Connection :=
  {| scope := sc;
     started := false;
     finished := false;
     resp_headers := [];
     resp_cookies := [];
     resp_status_code := None;
     http_body := [];
     http_has_more_body := true;
     http_received_body_length := 0%nat |}.

Definition set_started (b : bool) (c : Connection) : Connection :=
  {| scope := scope c; started := b; finished := finished c;
     resp_headers := resp_headers c; resp_cookies := resp_cookies c;
     resp_status_code := resp_status_code c; http_body := http_body c;
     http_has_more_body := http_has_more_body c;
     http_received_body_length := http_received_body_length c |}.

Definition set_finished (b : bool) (c : Connection) : Connection :=
  {| scope := scope c; started := started c; finished := b;
     resp_headers := resp_headers c; resp_cookies := resp_cookies c;
     resp_status_code := resp_status_code c; http_body := http_body c;
     http_has_more_body := http_has_more_body c;
     http_received_body_length := http_received_body_length c |}.

Definition set_resp_headers (h : Headers) (c : Connection) : Connection :=
  {| scope := scope c; started := started c; finished := finished c;
     resp_headers := h; resp_cookies := resp_cookies c;
     resp_status_code := resp_status_code c; http_body := http_body c;
     http_has_more_body := http_has_more_body c;
     http_received_body_length := http_received_body_length c |}.

Definition set_resp_cookies (k : dict) (c : Connection) : Connection :=
  {| scope := scope c; started := started c; finished := finished c;
     resp_headers := resp_headers c; resp_cookies := k;
     resp_status_code := resp_status_code c; http_body := http_body c;
     http_has_more_body := http_has_more_body c;
     http_received_body_length := http_received_body_length c |}.

Definition set_resp_status_code (s : option Z) (c : Connection) : Connection :=
  {| scope := scope c; started := started c; finished := finished c;
     resp_headers := resp_headers c; resp_cookies := resp_cookies c;
     resp_status_code := s; http_body := http_body c;
     http_has_more_body := http_has_more_body c;
     http_received_body_length := http_received_body_length c |}.

(** The three assignments at the end of one [body_iter] iteration. *)
Definition record_chunk (chunk : bytes) (more : bool) (c : Connection)
  : Connection :=
  {| scope := scope c; started := started c; finished := finished c;
     resp_headers := resp_headers c; resp_cookies := resp_cookies c;
     resp_status_code := resp_status_code c;
     http_body := http_body c ++ chunk;
     http_has_more_body := more;
     http_received_body_length :=
       (http_received_body_length c + List.length chunk)%nat |}.

(** ** The world a coroutine runs in *)

Record World := {
  conn : Connection;
  sent : list asgi_out;      (* messages given to [asgi_send], oldest first *)
  inbox : list asgi_in;      (* messages [asgi_receive] will deliver *)
  heap : list dict           (* header dictionaries, addressed by index *)
}.

Definition with_conn (c : Connection) (w : World) : World :=
  {| conn := c; sent := sent w; inbox := inbox w; heap := heap w |}.

Definition with_sent (s : list asgi_out) (w : World) : World :=
  {| conn := conn w; sent := s; inbox := inbox w; heap := heap w |}.

Definition with_inbox (i : list asgi_in) (w : World) : World :=
  {| conn := conn w; sent := sent w; inbox := i; heap := heap w |}.

Definition with_heap (h : list dict) (w : World) : World :=
  {| conn := conn w; sent := sent w; inbox := inbox w; heap := h |}.

(** The world at the start of an exchange. *)
Definition new_world (sc : Scope) (msgs : list asgi_in) (h : list dict)
  : World :=
  {| conn := Connection_init sc; sent := []; inbox := msgs; heap := h |}.

Inductive outcome (A : Type) :=
| Ok (a : A)
| Raise (e : exn)
| Blocked.
Arguments Ok {A} a.
Arguments Raise {A} e.
Arguments Blocked {A}.

Definition M (A : Type) : Type := World -> outcome A * World.

Definition ret {A} (a : A) : M A := fun w => (Ok a, w).

Definition bind {A B} (m : M A) (k : A -> M B) : M B :=
  fun w =>
    match m w with
    | (Ok a, w') => k a w'
    | (Raise e, w') => (Raise e, w')
    | (Blocked, w') => (Blocked, w')
    end.

Definition raise {A} (e : exn) : M A := fun w => (Raise e, w).

Declare Scope coro_scope.
Delimit Scope coro_scope with coro.
Notation "'let*' x ':=' m 'in' k" := (bind m (fun x => k))
  (at level 61, x name, m at next level, k at level 200) : coro_scope.
Notation "m ';;;' k" := (bind m (fun _ => k))
  (at level 61, k at level 200) : coro_scope.
Local Open Scope coro_scope.

Definition get_conn : M Connection := fun w => (Ok (conn w), w).

Definition modify_conn (f : Connection -> Connection) : M unit :=
  fun w => (Ok tt, with_conn (f (conn w)) w).

(** [await self.asgi_send(message)] *)
Definition asgi_send (m : asgi_out) : M unit :=
  fun w => (Ok tt, with_sent (sent w ++ [m]) w).

(** [Connection.type] *)
Definition conn_type (c : Connection) : ConnectionType :=
  match scope_type (scope c) with
  | Some t => if String.eqb t "websocket" then WebSocket else HTTP
  | None => HTTP
  end.

(** [Connection.put_resp_header] *)
Definition put_resp_header (key value : string) : M unit :=
  modify_conn (fun c => set_resp_headers (Headers_add key value (resp_headers c)) c).

(** The list comprehension of [start_resp]: every header pair encoded as
    ASCII, left to right. *)
Fixpoint encode_headers (h : Headers) : option (list (bytes * bytes)) :=
  match h with
  | [] => Some []
  | (k, v) :: h' =>
      match encode_ascii k, encode_ascii v with
      | Some k', Some v' =>
          match encode_headers h' with
          | Some r => Some ((k', v') :: r)
          | None => None
          end
      | _, _ => None
      end
  end.

(** The loop over [self.resp_cookies.values()]: one [Set-Cookie] pair per
    cookie. The dictionary holds, for each cookie name, the text that
    [Morsel.OutputString()] renders. *)
Fixpoint encode_cookies (k : dict) : option (list (bytes * bytes)) :=
  match k with
  | [] => Some []
  | (_, out) :: k' =>
      match encode_ascii out with
      | Some o =>
          match encode_cookies k' with
          | Some r => Some ((str_encode "Set-Cookie", o) :: r)
          | None => None
          end
      | None => None
      end
  end.

(** [not self.resp_status_code]: [None] and [0] are falsy. *)
Definition status_unset (s : option Z) : bool :=
  match s with
  | None => true
  | Some z => z =? 0
  end.

(** [Connection.start_resp] *)
Definition start_resp : M unit :=
  let* c := get_conn in
  if started c then raise (ValueError "resp already started")
  else
    (if status_unset (resp_status_code c)
     then modify_conn (set_resp_status_code (Some 200))
     else ret tt) ;;;
    let* c := get_conn in
    match encode_headers (resp_headers c) with
    | None => raise UnicodeEncodeError
    | Some hs =>
        match encode_cookies (resp_cookies c) with
        | None => raise UnicodeEncodeError
        | Some cs =>
            (* the status is an integer here: it was defaulted above *)
            asgi_send (http_response_start
                         (default 0 (resp_status_code c)) (hs ++ cs)) ;;;
            modify_conn (set_started true)
        end
    end.

(** [Connection.finish] *)
Definition finish : M unit :=
  let* c := get_conn in
  match conn_type c with
  | HTTP =>
      if finished c then raise (ValueError "Connection already finished")
      else
        (if negb (started c)
         then modify_conn (set_resp_status_code (Some 204)) ;;; start_resp
         else ret tt) ;;;
        asgi_send (http_response_body [] false) ;;;
        modify_conn (set_finished true)
  | WebSocket => raise NotImplementedError
  end.

(** [Connection._http_send]; [data] is [None] when the caller passed
    [None], for which [len(data)] raises and the body sent is empty. *)
Definition _http_send (data : option bytes) (finish_ : bool) : M unit :=
  let* c := get_conn in
  (if negb (started c)
   then
     (if finish_
      then
        match data with
        | Some d => put_resp_header "content-length" (str_of_nat (List.length d))
        | None => raise (TypeError "object of type 'NoneType' has no len()")
        end
      else ret tt) ;;;
     start_resp
   else ret tt) ;;;
  asgi_send (http_response_body (default [] data) true) ;;;
  if finish_ then finish else ret tt.

(** [if isinstance(data, str): data = data.encode()] *)
Definition encode_if_str (data : pydata) : option bytes :=
  match data with
  | PyStr s => Some (str_encode s)
  | PyBytes b => Some b
  | PyNone => None
  end.

(** [Connection.send] *)
Definition send (data : pydata) (finish_ : bool) : M unit :=
  let* c := get_conn in
  if finished c
  then raise (ValueError "No message can be sent when connection closed")
  else
    match conn_type c with
    | HTTP => _http_send (encode_if_str data) finish_
    | WebSocket => raise NotImplementedError
    end.


(** *** Request headers and the declared body length *)

(** [Connection.req_headers]: every pair decoded as ASCII in order;
    [None] stands for the [UnicodeDecodeError] of a failed decode. *)
Fixpoint decode_headers (l : list (bytes * bytes)) : option Headers :=
  match l with
  | [] => Some []
  | (k, v) :: l' =>
      match decode_ascii k, decode_ascii v with
      | Some k', Some v' =>
          match decode_headers l' with
          | Some r => Some ((k', v') :: r)
          | None => None
          end
      | _, _ => None
      end
  end.

Definition req_headers (c : Connection) : option Headers :=
  decode_headers (scope_headers (scope c)).

(** The builtin [int(s)] on ASCII text: surrounding whitespace is
    dropped, one sign is allowed, and digits may be grouped by single
    underscores. [None] stands for [ValueError]. *)
Definition is_space (a : ascii) : bool :=
  let n := nat_of_ascii a in
  ((9 <=? n) && (n <=? 13) || (28 <=? n) && (n <=? 32))%nat.

Definition digit_val (a : ascii) : option Z :=
  let n := nat_of_ascii a in
  if ((48 <=? n) && (n <=? 57))%nat then Some (Z.of_nat (n - 48)) else None.

Fixpoint lstrip (l : list ascii) : list ascii :=
  match l with
  | a :: l' => if is_space a then lstrip l' else l
  | [] => []
  end.

Definition strip (l : list ascii) : list ascii :=
  rev (lstrip (rev (lstrip l))).

Fixpoint int_digits (acc : Z) (l : list ascii) : option Z :=
  match l with
  | [] => Some acc
  | a :: l' =>
      if Ascii.eqb a "_"
      then match l' with
           | d :: _ =>
               match digit_val d with
               | Some _ => int_digits acc l'
               | None => None
               end
           | [] => None
           end
      else match digit_val a with
           | Some d => int_digits (10 * acc + d) l'
           | None => None
           end
  end.

Definition int_unsigned (l : list ascii) : option Z :=
  match l with
  | a :: l' =>
      match digit_val a with
      | Some d => int_digits d l'
      | None => None
      end
  | [] => None
  end.

Definition py_int (s : string) : option Z :=
  match strip (list_ascii_of_string s) with
  | a :: l' =>
      if Ascii.eqb a "-" then Z.opp <$> int_unsigned l'
      else if Ascii.eqb a "+" then int_unsigned l'
      else int_unsigned (a :: l')
  | [] => None
  end.

(** The assignment to [req_body_length] in [body_iter]: [inr None] when
    the transfer encoding is chunked. *)
Definition req_body_length (c : Connection) : exn + option Z :=
  match req_headers c with
  | None => inl UnicodeDecodeError
  | Some hs =>
      if negb (bool_decide (Headers_get "transfer-encoding" hs = Some "chunked"))
      then
        match py_int (default "0" (Headers_get "content-length" hs)) with
        | Some n => inr (Some n)
        | None => inl (ValueError "invalid literal for int() with base 10")
        end
      else inr None
  end.

(** [req_body_length and self.http_received_body_length > req_body_length] *)
Definition over_limit (rbl : option Z) (c : Connection) : bool :=
  match rbl with
  | Some n => negb (n =? 0) && (n <? Z.of_nat (http_received_body_length c))
  | None => false
  end.

(** [chunk = message.get("body", ...)], empty by default, followed by the
    [isinstance] test. *)
Definition chunk_of (b : body_field) : option bytes :=
  match b with
  | BodyAbsent => Some []
  | BodyBytes x => Some x
  | BodyOther => None
  end.

(** *** [Connection.body_iter]

    An asynchronous generator driven to its end: the chunks it yields in
    order, how it stops, the connection it leaves and the messages not yet
    received. Every iteration of the [while] loop takes one message. *)
Fixpoint body_iter_loop (rbl : option Z) (msgs : list asgi_in) (c : Connection)
  : list bytes * outcome unit * Connection * list asgi_in :=
  if negb (http_has_more_body c) then ([], Ok tt, c, msgs)
  else if over_limit rbl c
  then ([], Raise (ValueError "body is longer than declared"), c, msgs)
  else
    match msgs with
    | [] => ([], Blocked, c, [])
    | http_disconnect :: rest => ([], Raise (ValueError "Disconnected"), c, rest)
    | other_message _ :: rest => body_iter_loop rbl rest c
    | http_request b more :: rest =>
        match chunk_of b with
        | None => ([], Raise (ValueError "Chunk is not bytes"), c, rest)
        | Some chunk =>
            let c' := record_chunk chunk (default false more) c in
            let '(ys, o, c'', rest') := body_iter_loop rbl rest c' in
            (chunk :: ys, o, c'', rest')
        end
    end.

Definition body_iter (w : World) : list bytes * outcome unit * World :=
  let c := conn w in
  match conn_type c with
  | WebSocket => ([], Raise (ValueError "connection type is not HTTP"), w)
  | HTTP =>
      if (0 <? http_received_body_length c)%nat && http_has_more_body c
      then ([], Raise (ValueError "body iter is already started and is not finished"), w)
      else
        let pre := if (0 <? http_received_body_length c)%nat
                      && negb (http_has_more_body c)
                   then [http_body c] else [] in
        match req_body_length c with
        | inl e => (pre, Raise e, w)
        | inr rbl =>
            let '(ys, o, c', rest) := body_iter_loop rbl (inbox w) c in
            (pre ++ ys, o, with_inbox rest (with_conn c' w))
        end
  end.

(** [Connection.body] *)
Definition body : M bytes :=
  fun w =>
    match body_iter w with
    | (ys, Ok _, w') => (Ok (concat ys), w')
    | (_, Raise e, w') => (Raise e, w')
    | (_, Blocked, w') => (Blocked, w')
    end.

(** *** [Connection.query]

    [MultiDict(parse_qsl(unquote_plus(self.scope["query_string"].decode())))].
    The three library functions are written out on the UTF-8 bytes of the
    text. *)

Definition is_cont (b : byte) : bool :=
  let n := Byte.to_N b in ((128 <=? n) && (n <=? 191))%N.

(** Number of continuation bytes a lead byte announces; [None] for a byte
    that cannot start a character. *)
Definition utf8_trail (b0 : byte) : option nat :=
  let n := Byte.to_N b0 in
  if (n <? 128)%N then Some 0%nat
  else if (n <? 194)%N then None
  else if (n <? 224)%N then Some 1%nat
  else if (n <? 240)%N then Some 2%nat
  else if (n <? 245)%N then Some 3%nat
  else None.

(** The second byte of a character, with the ranges that exclude overlong
    forms, surrogates and code points above U+10FFFF. *)
Definition second_ok (b0 b1 : byte) : bool :=
  let n0 := Byte.to_N b0 in
  let n1 := Byte.to_N b1 in
  (is_cont b1 &&
   (if n0 =? 224 then 160 <=? n1
    else if n0 =? 237 then n1 <? 160
    else if n0 =? 240 then 144 <=? n1
    else if n0 =? 244 then n1 <? 144
    else true))%N.

Fixpoint count_cont (k : nat) (l : bytes) : nat :=
  match k, l with
  | S k', b :: l' => if is_cont b then S (count_cont k' l') else O
  | _, _ => O
  end.

(** One step of the UTF-8 decoder at [b0 :: rest]: whether a character was
    read, and how many bytes the character or the error covers. *)
Definition utf8_step (b0 : byte) (rest : bytes) : bool * nat :=
  match utf8_trail b0 with
  | None => (false, 1%nat)
  | Some O => (true, 1%nat)
  | Some (S k) =>
      match rest with
      | [] => (false, 1%nat)
      | b1 :: rest1 =>
          if negb (second_ok b0 b1) then (false, 1%nat)
          else
            let m := count_cont k rest1 in
            if (m =? k)%nat then (true, S (S k)) else (false, S (S m))
      end
  end.

Fixpoint utf8_scan (fuel : nat) (l : bytes) : list (bool * bytes) :=
  match fuel, l with
  | S f, b0 :: rest =>
      let '(ok, n) := utf8_step b0 rest in
      (ok, take n l) :: utf8_scan f (drop n l)
  | _, _ => []
  end.

(** Every step takes at least one byte, so [length l] steps reach the end. *)
Definition utf8_items (l : bytes) : list (bool * bytes) :=
  utf8_scan (List.length l) l.

(** [b.decode()]: strict UTF-8; [None] stands for [UnicodeDecodeError]. *)
Definition bytes_decode (l : bytes) : option string :=
  if forallb fst (utf8_items l) then Some (string_of_list_byte l) else None.

(** [b.decode("utf-8", "replace")], as the bytes of the resulting text:
    each error becomes U+FFFD. *)
Definition utf8_replace (l : bytes) : bytes :=
  concat (map (fun it : bool * bytes =>
                 if fst it then snd it else [xef; xbf; xbd]%byte)
              (utf8_items l)).

Definition hex_val (b : byte) : option N :=
  let n := Byte.to_N b in
  (if (48 <=? n) && (n <=? 57) then Some (n - 48)
   else if (65 <=? n) && (n <=? 70) then Some (n - 55)
   else if (97 <=? n) && (n <=? 102) then Some (n - 87)
   else None)%N.

Definition hex_pair (h1 h2 : byte) : option byte :=
  match hex_val h1, hex_val h2 with
  | Some a, Some b => Byte.of_N (16 * a + b)
  | _, _ => None
  end.

(** [urllib.parse.unquote_to_bytes]: [%XX] becomes one byte, a [%] not
    followed by two hex digits stays. *)
Fixpoint unquote_to_bytes (l : bytes) : bytes :=
  match l with
  | [] => []
  | b :: l' =>
      if Byte.eqb b "%"
      then
        match l' with
        | h1 :: h2 :: rest =>
            match hex_pair h1 h2 with
            | Some x => x :: unquote_to_bytes rest
            | None => b :: unquote_to_bytes l'
            end
        | _ => b :: unquote_to_bytes l'
        end
      else b :: unquote_to_bytes l'
  end.

(** [unquote] treats each maximal run of ASCII characters on its own and
    copies the characters in between; [run] is the current run, reversed. *)
Definition flush_run (run : bytes) : bytes :=
  utf8_replace (unquote_to_bytes (rev run)).

Fixpoint unquote_runs (l run : bytes) : bytes :=
  match l with
  | [] => flush_run run
  | b :: l' =>
      if is_ascii_byte b then unquote_runs l' (b :: run)
      else flush_run run ++ b :: unquote_runs l' []
  end.

(** [urllib.parse.unquote] *)
Definition unquote (l : bytes) : bytes :=
  if negb (existsb (Byte.eqb "%") l) then l else unquote_runs l [].

(** [s.replace("+", " ")] *)
Definition plus_to_space (l : bytes) : bytes :=
  map (fun b => if Byte.eqb b "+" then " "%byte else b) l.

(** [urllib.parse.unquote_plus] *)
Definition unquote_plus (l : bytes) : bytes := unquote (plus_to_space l).

(** [s.split(sep)] for a one-character separator. *)
Fixpoint split_on (sep : byte) (l : bytes) : list bytes :=
  match l with
  | [] => [[]]
  | b :: l' =>
      if Byte.eqb b sep then [] :: split_on sep l'
      else match split_on sep l' with
           | h :: t => (b :: h) :: t
           | [] => [[b]]
           end
  end.

(** [s.split(sep, 1)]: [None] when [sep] does not occur (one piece), else
    the text before and after its first occurrence. *)
Fixpoint split_once (sep : byte) (l : bytes) : option (bytes * bytes) :=
  match l with
  | [] => None
  | b :: l' =>
      if Byte.eqb b sep then Some ([], l')
      else match split_once sep l' with
           | Some (x, y) => Some (b :: x, y)
           | None => None
           end
  end.

(** The body of the loop of [parse_qsl] for one [name_value], with
    [keep_blank_values] and [strict_parsing] false. *)
Definition parse_pair (name_value : bytes) : list (string * string) :=
  match name_value with
  | [] => []
  | _ =>
      match split_once "=" name_value with
      | None => []
      | Some (n, v) =>
          match v with
          | [] => []
          | _ => [(string_of_list_byte (unquote (plus_to_space n)),
                   string_of_list_byte (unquote (plus_to_space v)))]
          end
      end
  end.

(** [urllib.parse.parse_qsl] *)
Definition parse_qsl (qs : bytes) : list (string * string) :=
  match qs with
  | [] => []
  | _ => concat (map parse_pair (split_on "&" qs))
  end.

(** werkzeug [MultiDict]: each key, in order of first appearance, with
    the list of its values. *)
Definition MultiDict := list (string * list string).

Fixpoint MultiDict_append (k v : string) (d : MultiDict) : MultiDict :=
  match d with
  | [] => [(k, [v])]
  | (k', vs) :: d' =>
      if String.eqb k k' then (k', vs ++ [v]) :: d'
      else (k', vs) :: MultiDict_append k v d'
  end.

(** [MultiDict(pairs)] *)
Definition MultiDict_init (pairs : list (string * string)) : MultiDict :=
  fold_left (fun d kv => MultiDict_append (fst kv) (snd kv) d) pairs [].

Fixpoint MultiDict_getlist (k : string) (d : MultiDict) : list string :=
  match d with
  | [] => []
  | (k', vs) :: d' => if String.eqb k k' then vs else MultiDict_getlist k d'
  end.

(** [MultiDict.get(key)]: the first value of the key. *)
Definition MultiDict_get (k : string) (d : MultiDict) : option string :=
  head (MultiDict_getlist k d).

(** [Connection.query]; [None] stands for the [UnicodeDecodeError] of
    [decode()]. *)
Definition query (c : Connection) : option MultiDict :=
  match bytes_decode (scope_query_string (scope c)) with
  | None => None
  | Some s =>
      Some (MultiDict_init (parse_qsl (unquote_plus (list_byte_of_string s))))
  end.

(** *** [Connection.put_resp_cookie]

    [http.cookies] is a library: [Morsel_set old key value] is the text
    [OutputString()] renders for the morsel stored by
    [self.resp_cookies[key] = value] when [old] is the rendering of the
    morsel already stored under [key], or the exception the assignment
    raises for an illegal key. *)
Section Cookies.

Variable Morsel_set : option string -> string -> string -> exn + string.

Definition put_resp_cookie (key value : string) : M unit :=
  let* c := get_conn in
  match Morsel_set (dict_get key (resp_cookies c)) key value with
  | inl e => raise e
  | inr out => modify_conn (set_resp_cookies (dict_setitem key out (resp_cookies c)))
  end.

End Cookies.

(** ** response.py *)

(** An [HttpResponse] object. [hr_connection] tells whether a connection
    is bound (the bound connection is the one of the current world);
    [hr_headers] is [None] or a reference to a dictionary on the heap. *)
Record HttpResponse := {
  hr_body : pydata;
  hr_connection : bool;
  hr_status_code : Z;
  hr_headers : option nat
}.

(** The keyword arguments of the constructors. [kw_headers] is [None]
    when no [headers] argument is given, [Some None] for [headers=None]
    and [Some (Some l)] for the dictionary at [l]. *)
Record Kwargs := {
  kw_status_code : option Z;
  kw_headers : option (option nat)
}.

Definition no_kwargs : Kwargs :=
  {| kw_status_code := None; kw_headers := None |}.

(** [{}] and dictionary displays: a new object on the heap. *)
Definition new_dict (d : dict) : M nat :=
  fun w => (Ok (List.length (heap w)), with_heap (heap w ++ [d]) w).

(** [d[k] = v] through a reference. *)
Definition dict_store (l : nat) (k v : string) : M unit :=
  fun w => (Ok tt, with_heap (alter (dict_setitem k v) l (heap w)) w).

(** The items of the dictionary behind a reference. *)
Definition dict_items (l : nat) : M dict :=
  fun w => (Ok (default [] (heap w !! l : option dict)), w).

(** [HttpResponse.__init__] *)
Definition HttpResponse_init (body_ : pydata) (connection : bool) (kw : Kwargs)
  : HttpResponse :=
  {| hr_body := body_;
     hr_connection := connection;
     hr_status_code := default 200 (kw_status_code kw);
     hr_headers := mjoin (kw_headers kw) |}.

(** The loop [for k, v in self.headers.items(): put_resp_header(k, v)]. *)
Fixpoint put_resp_headers (d : dict) : M unit :=
  match d with
  | [] => ret tt
  | (k, v) :: d' => put_resp_header k v ;;; put_resp_headers d'
  end.

(** [HttpResponse.__await__] *)
Definition HttpResponse_await (r : HttpResponse) : M unit :=
  if negb (hr_connection r) then raise (ValueError "No connection")
  else
    modify_conn (set_resp_status_code (Some (hr_status_code r))) ;;;
    (match hr_headers r with
     | None => ret tt
     | Some l =>
         let* d := dict_items l in
         match d with
         | [] => ret tt
         | _ => put_resp_headers d
         end
     end) ;;;
    send (hr_body r) true.

(** [json.dumps] is a library function, taken as a parameter on the type
    of serializable values. *)
Section Json.

Variable Json : Type.
Variable json_dumps : Json -> string.

(** [JsonResponse.__init__] *)
Definition JsonResponse_init (data : Json) (connection : bool) (kw : Kwargs)
  : M HttpResponse :=
  let body_ := json_dumps data in
  let* headers :=
    match mjoin (kw_headers kw) with
    | None => new_dict []
    | Some l => ret l
    end in
  dict_store headers "content-type" "application/json" ;;;
  ret (HttpResponse_init (PyStr body_) connection kw).

End Json.

Arguments JsonResponse_init {Json} json_dumps data connection kw.

(** ** routing.py *)

Record Rule := {
  rule_string : string;
  endpoint : string;
  methods : option (gset string)
}.

(** A handler is a function object: an identity, a [__name__] and the
    coroutine it runs on the matched path variables. A function object
    is always truthy. *)
Record Handler := {
  handler_id : nat;
  handler_name : string;
  handler_call : list (string * string) -> M (option HttpResponse)
}.

(** [existing_handler is handler] *)
Definition handler_is (h1 h2 : Handler) : bool :=
  (handler_id h1 =? handler_id h2)%nat.

Record Router := {
  url_map : list Rule;
  endpoint_to_handler : gmap string Handler
}.

(** [Router.__init__] *)
Definition Router_init : Router :=
  {| url_map := []; endpoint_to_handler := ∅ |}.

(** What [MapAdapter.match] is called on. *)
Record UrlBinding := {
  bound_map : list Rule;
  server_name : option string;
  path_info : option string;
  script_name : option string;
  url_scheme : option string;
  query_args : bytes
}.

(** The ways [match(return_rule=True, method=...)] ends. *)
Inductive MatchOutcome :=
| Matched (rule : Rule) (args : list (string * string))
| RequestRedirect (new_url : string)
| MethodNotAllowed
| NotFound
| MatchRaises (e : exn).

(** The werkzeug routing library is a parameter: [Rule_error s] is the
    exception building or adding a rule for [s] raises, if any, and
    [url_match] stands for binding the map to the request and matching,
    with [MatchRaises] for any exception other than the three the router
    handles. *)
Section Routing.

Variable Rule_error : string -> option exn.
Variable url_match : UrlBinding -> option string -> MatchOutcome.

(** [Router.add_route] *)
Definition add_route (rule_string_ : string) (handler : Handler)
    (name : option string) (methods_ : option (gset string)) (r : Router)
  : exn + Router :=
  let name :=
    match name with
    | Some n => if String.eqb n EmptyString then handler_name handler else n
    | None => handler_name handler
    end in
  let existing_handler := endpoint_to_handler r !! name in
  if match existing_handler with
     | Some e => negb (handler_is e handler)
     | None => false
     end
  then inl (ValueError (String.append "Duplicated route name: " name))
  else
    match Rule_error rule_string_ with
    | Some e => inl e
    | None =>
        inr {| url_map :=
                 url_map r ++ [{| rule_string := rule_string_;
                                  endpoint := name;
                                  methods := methods_ |}];
               endpoint_to_handler := <[name := handler]> (endpoint_to_handler r) |}
    end.

(** [Router.route(rule, methods, name)] applied to a handler. *)
Definition route (rule : string) (methods_ : option (list string))
    (name : option string) (handler : Handler) (r : Router) : exn + Router :=
  let methods_ : option (gset string) :=
    match methods_ with
    | Some l =>
        let s : gset string := list_to_set l in
        if bool_decide (s ≠ ∅) && negb (bool_decide ("OPTIONS" ∈ s))
        then Some (s ∪ {["OPTIONS"]})
        else Some s
    | None => None
    end in
  add_route rule handler name methods_ r.

(** [value or None] *)
Definition or_None (s : option string) : option string :=
  match s with
  | Some x => if String.eqb x EmptyString then None else Some x
  | None => None
  end.

(** [Router.get_url_binding_for_connection]; [None] stands for the
    [UnicodeDecodeError] of [req_headers]. *)
Definition get_url_binding_for_connection (r : Router) (c : Connection)
  : option UrlBinding :=
  match req_headers c with
  | None => None
  | Some hs =>
      Some {| bound_map := url_map r;
              server_name := Headers_get "host" hs;
              path_info := scope_path (scope c);
              script_name := or_None (scope_root_path (scope c));
              url_scheme := scope_scheme (scope c);
              query_args := scope_query_string (scope c) |}
  end.

(** [Router.__call__] *)
Definition Router_call (r : Router) : M unit :=
  let* c := get_conn in
  match get_url_binding_for_connection r c with
  | None => raise UnicodeDecodeError
  | Some b =>
      match url_match b (scope_method (scope c)) with
      | RequestRedirect new_url =>
          modify_conn (set_resp_status_code (Some 302)) ;;;
          put_resp_header "location" new_url ;;;
          send (PyStr (String.append "redirecting to: " new_url)) true
      | MethodNotAllowed =>
          modify_conn (set_resp_status_code (Some 405)) ;;;
          send (PyBytes []) true
      | NotFound => send (PyBytes (str_encode "Not Found")) true
      | MatchRaises e => raise e
      | Matched rule args =>
          match endpoint_to_handler r !! endpoint rule with
          | None => raise (KeyError (endpoint rule))
          | Some handler =>
              let* res := handler_call handler args in
              match res with
              | Some resp =>
                  HttpResponse_await
                    {| hr_body := hr_body resp; hr_connection := true;
                       hr_status_code := hr_status_code resp;
                       hr_headers := hr_headers resp |}
              | None => ret tt
              end
          end
      end
  end.

End Routing.

(** ** application.py *)

(** The [for] loop of [asgi_app]; the result tells whether the loop left
    through its [return]. *)
Fixpoint run_routers (routers : list (M unit)) : M bool :=
  match routers with
  | [] => ret false
  | router :: rest =>
      router ;;;
      let* c := get_conn in
      if finished c then ret true else run_routers rest
  end.

(** The body of [asgi_app] once [conn] is built. *)
Definition asgi_app (routers : list (M unit)) : M unit :=
  let* returned := run_routers routers in
  if returned then ret tt
  else
    let* c := get_conn in
    if started c then finish
    else
      modify_conn (set_resp_status_code (Some 404)) ;;;
      send (PyStr "Not found") true.

(** The application [Servitor] returns, called on [(scope, receive, send)]: the application run on the
    connection it builds; [msgs] is what [receive] delivers and [h] the
    dictionaries that exist when the exchange starts. *)
Definition Servitor (routers : list (M unit)) (sc : Scope)
    (msgs : list asgi_in) (h : list dict) : outcome unit * World :=
  asgi_app routers (new_world sc msgs h).

(** ** Vocabulary of the statements and sample exchanges *)

(** An incoming message that delivers a chunk of body. *)
Definition delivers_bytes (m : asgi_in) : Prop :=
  match m with
  | http_request b _ => is_Some (chunk_of b)
  | _ => False
  end.

(** The chunks a sequence of body deliveries carries, up to and including
    the first one whose more-body flag is false. *)
Fixpoint delivered_chunks (msgs : list asgi_in) : list bytes :=
  match msgs with
  | http_request b more :: rest =>
      match chunk_of b with
      | Some chunk =>
          chunk :: (if default false more then delivered_chunks rest else [])
      | None => []
      end
  | _ => []
  end.

(** A GET request for [path] with the given header list and query string. *)
Definition http_scope (path : string) (hdrs : list (string * string))
    (qs : string) : Scope :=
  {| scope_type := Some "http";
     scope_method := Some "GET";
     scope_path := Some path;
     scope_root_path := None;
     scope_scheme := Some "http";
     scope_query_string := str_encode qs;
     scope_headers := map (fun kv => (str_encode (fst kv), str_encode (snd kv))) hdrs |}.

(** A request that declares a body of three bytes. *)
Definition scope_declares_3 : Scope :=
  http_scope "/" [("content-length", "3")] EmptyString.

(** Two body deliveries, the second one final. *)
Definition two_deliveries (c1 c2 : bytes) : list asgi_in :=
  [http_request (BodyBytes c1) (Some true);
   http_request (BodyBytes c2) (Some false)].

(** The query string whose value holds an encoded [&] and an encoded [=]. *)
Definition encoded_pair_query : string := "a=1%26b%3D2".

(** A handler that returns nothing. *)
Definition sample_handler (id : nat) (name : string) : Handler :=
  {| handler_id := id;
     handler_name := name;
     handler_call := fun _ => ret None |}.

(** A rule checker that accepts every rule string. *)
Definition accept_all_rules : string -> option exn := fun _ => None.

(** The status a response start carries: the status code of the
    connection, or 200 when none is set. *)
Definition effective_status (s : option Z) : Z :=
  match s with
  | Some z => if z =? 0 then 200 else z
  | None => 200
  end.

(** The connection after a send that both starts and finishes the
    response with [b] as body. *)
Definition after_finishing_send (b : bytes) (c : Connection) : Connection :=
  set_finished true
    (set_started true
       (set_resp_status_code (Some (effective_status (resp_status_code c)))
          (set_resp_headers
             (Headers_add "content-length" (str_of_nat (List.length b))
                (resp_headers c)) c))).

(** The text [{"hello": "world"}] that [json.dumps] renders for the value
    the example handler of main.py returns. *)
Definition quote_mark : string := String "034"%char EmptyString.

Definition hello_world_text : string :=
  String.concat EmptyString
    ["{"; quote_mark; "hello"; quote_mark; ": "; quote_mark; "world"; quote_mark; "}"].

(** A serializer that knows this one value. *)
Definition dumps_hello (_ : unit) : string := hello_world_text.

(** The header dictionary [{"x-trace": "1"}]. *)
Definition trace_headers : dict := [("x-trace", "1")].

(** The entries an awaited response adds to the response headers: those
    of the dictionary its [headers] refers to. *)
Definition response_headers (r : HttpResponse) (w : World) : dict :=
  match hr_headers r with
  | Some l => default [] (heap w !! l : option dict)
  | None => []
  end.

(** The [content-length] pair a finishing send adds for the body [b]. *)
Definition content_length_pair (b : bytes) : bytes * bytes :=
  (str_encode "content-length", str_encode (str_of_nat (List.length b))).

(** A matcher that finds no rule for any request. *)
Definition match_nothing : UrlBinding -> option string -> MatchOutcome :=
  fun _ _ => NotFound.

(** [runs_unfinished stages w w'] : the stages run in order from [w], each
    returns normally and leaves the connection unfinished, and [w'] is the
    world after the last of them. *)
Inductive runs_unfinished : list (M unit) -> World -> World -> Prop :=
| runs_nil (w : World) : runs_unfinished [] w w
| runs_cons (s : M unit) (rest : list (M unit)) (w w1 w2 : World) :
    s w = (Ok tt, w1) ->
    finished (conn w1) = false ->
    runs_unfinished rest w1 w2 ->
    runs_unfinished (s :: rest) w w2.

(** An operation keeps the status code of a started response when, run
    on any connection whose response is started, it leaves
    [resp_status_code] as it found it. *)
Definition keeps_status {A : Type} (m : M A) : Prop :=
  forall w, started (conn w) = true ->
            resp_status_code (conn (snd (m w))) = resp_status_code (conn w).

(** A bound plain response with status 500 and no headers. *)
Definition response_500 : HttpResponse :=
  {| hr_body := PyBytes []; hr_connection := true;
     hr_status_code := 500; hr_headers := None |}.

(** A stage that sends one chunk and does not finish. *)
Definition stage_sends (text : string) : M unit := send (PyStr text) false.

(** A cookie renderer for plain names and values. *)
Definition plain_morsel (_ : option string) (key value : string) : exn + string :=
  inr (String.append key (String.append "=" value)).

(** A started, unfinished exchange: one chunk was sent on a fresh
    connection. *)
Definition started_world : World :=
  snd (send (PyStr "a") false (new_world (http_scope "/" [] EmptyString) [] [])).

(** A matcher that finds the path under another method only. *)
Definition match_other_method : UrlBinding -> option string -> MatchOutcome :=
  fun _ _ => MethodNotAllowed.

(** ** The response protocol as a state machine *)

(** [trace_shape started finished l]: the messages [l] given to the server
    so far are nothing at all, or one response start followed by body
    chunks with more-body true, closed by one empty chunk with more-body
    false exactly when the connection is finished. *)
Inductive trace_shape : bool -> bool -> list asgi_out -> Prop :=
| shape_idle : trace_shape false false []
| shape_start (l : list asgi_out) (st : Z) (hs : list (bytes * bytes)) :
    trace_shape false false l ->
    trace_shape true false (l ++ [http_response_start st hs])
| shape_chunk (l : list asgi_out) (b : bytes) :
    trace_shape true false l ->
    trace_shape true false (l ++ [http_response_body b true])
| shape_final (l : list asgi_out) :
    trace_shape true false l ->
    trace_shape true true (l ++ [http_response_body [] false]).

Definition conforms (w : World) : Prop :=
  trace_shape (started (conn w)) (finished (conn w)) (sent w).

(** What code holding a connection does with it through the methods of
    [Connection] and the response types, and by assigning the status
    code. *)
Inductive conn_op :=
| op_send (data : pydata) (finish_ : bool)
| op_finish
| op_start_resp
| op_put_resp_header (key value : string)
| op_put_resp_cookie (key value : string)
| op_set_status (s : option Z)
| op_body
| op_await (r : HttpResponse).

Section Ops.

Variable Morsel_set : option string -> string -> string -> exn + string.

(** The world an operation leaves, whether it returns or raises. *)
Definition run_op (o : conn_op) (w : World) : World :=
  match o with
  | op_send d f => snd (send d f w)
  | op_finish => snd (finish w)
  | op_start_resp => snd (start_resp w)
  | op_put_resp_header k v => snd (put_resp_header k v w)
  | op_put_resp_cookie k v => snd (put_resp_cookie Morsel_set k v w)
  | op_set_status s => snd (modify_conn (set_resp_status_code s) w)
  | op_body => snd (body w)
  | op_await r => snd (HttpResponse_await r w)
  end.

Definition run_ops (ops : list conn_op) (w : World) : World :=
  fold_left (fun w o => run_op o w) ops w.

End Ops.

(** A websocket scope. *)
Definition websocket_scope : Scope :=
  {| scope_type := Some "websocket";
     scope_method := None;
     scope_path := Some "/ws";
     scope_root_path := None;
     scope_scheme := Some "ws";
     scope_query_string := [];
     scope_headers := [] |}.

(** ** main.py: the example server *)

Section Main.

Variable Json : Type.
Variable json_dumps : Json -> string.
(** The dictionary display [{'hello': name}]. *)
Variable hello_object : string -> Json.
Variable Rule_error : string -> option exn.
Variable url_match : UrlBinding -> option string -> MatchOutcome.

(** [async def hello(connection, name): return JsonResponse({'hello': name})],
    called with the matched path variables as keyword arguments. *)
Definition hello : Handler :=
  {| handler_id := 1;
     handler_name := "hello";
     handler_call := fun args =>
       match args with
       | [(k, name)] =>
           if String.eqb k "name"
           then
             let* r := JsonResponse_init json_dumps (hello_object name) false no_kwargs in
             ret (Some r)
           else raise (TypeError "hello() got an unexpected keyword argument")
       | _ => raise (TypeError "hello() got unexpected arguments")
       end |}.

(** [router = Router()] followed by [@router.route("/hello/<name>")]. *)
Definition main_router : exn + Router :=
  route Rule_error "/hello/<name>" None None hello Router_init.

(** [app = Servitor(router)] *)
Definition main_app (router : Router) (sc : Scope) (msgs : list asgi_in)
    (h : list dict) : outcome unit * World :=
  Servitor [Router_call url_match router] sc msgs h.

End Main.

(** The only rule of the example server. *)
Definition hello_rule : Rule :=
  {| rule_string := "/hello/<name>"; endpoint := "hello"; methods := None |}.

(** A matcher for the example server: any request is the rule [hello_rule]
    with ["world"] for the name. *)
Definition match_hello_world : UrlBinding -> option string -> MatchOutcome :=
  fun _ _ => Matched hello_rule [("name", "world")].


(** A stage that raises. *)
Definition stage_raises : M unit := raise (OtherError "boom").

(** Every rule of the pattern map names an endpoint that has a handler. *)
Definition routes_resolved (r : Router) : Prop :=
  forall rule, In rule (url_map r) ->
               is_Some (endpoint_to_handler r !! endpoint rule).

(** A serializer for the example server: the object [{'hello': name}] is
    represented by [name]. *)
Definition dumps_hello_name (name : string) : string :=
  String.concat EmptyString
    ["{"; quote_mark; "hello"; quote_mark; ": "; quote_mark; name; quote_mark; "}"].

(** [res.connection = connection] *)
Definition bound_to_connection (resp : HttpResponse) : HttpResponse :=
  {| hr_body := hr_body resp; hr_connection := true;
     hr_status_code := hr_status_code resp; hr_headers := hr_headers resp |}.

(** A handler that answers by itself and returns nothing. *)
Definition handler_sends (id : nat) (name text : string) : Handler :=
  {| handler_id := id;
     handler_name := name;
     handler_call := fun _ => send (PyStr text) true ;;; ret None |}.

(** A request that declares a body of minus one byte. *)
Definition scope_declares_negative : Scope :=
  http_scope "/" [("content-length", "-1")] EmptyString.

(** A byte that is neither [%] nor [+]. *)
Definition plain_byte (b : byte) : bool :=
  negb (Byte.eqb "%" b) && negb (Byte.eqb b "+").

(** * Properties *)

(** ** Running a connection that is known to be HTTP *)

Lemma conn_type_http (c : Connection) :
  scope_type (scope c) <> Some "websocket" -> conn_type c = HTTP.
Proof.
  unfold conn_type. destruct (scope_type (scope c)) as [t|]; [|reflexivity].
  intros H. destruct (String.eqb_spec t "websocket") as [->|]; [|reflexivity].
  now contradict H.
Qed.

Lemma conn_type_websocket (c : Connection) :
  scope_type (scope c) = Some "websocket" -> conn_type c = WebSocket.
Proof. unfold conn_type. now intros ->. Qed.

Arguments conn_type : simpl never.

(** Unfold the coroutines of [Connection] and decide the connection type
    from the hypothesis on the scope. *)
Ltac run_http H :=
  unfold send, _http_send, finish, start_resp, put_resp_header, asgi_send,
    modify_conn, get_conn, bind, ret, raise;
  cbn -[conn_type];
  repeat (rewrite conn_type_http by exact H; cbn -[conn_type]).

(** ** Finishing send on a fresh connection *)

(** C7. On a fresh HTTP connection, [send("abc", finish=True)] hands the
    server exactly three messages: the response start with status 200 and
    the header [content-length: 3], the body chunk [abc] with more-body
    true, and the empty final chunk with more-body false. *)
Theorem send_abc_finish_events (sc : Scope) (msgs : list asgi_in) (h : list dict) :
  scope_type sc <> Some "websocket" ->
  let r := send (PyStr "abc") true (new_world sc msgs h) in
  fst r = Ok tt /\
  sent (snd r) =
    [ http_response_start 200 [(str_encode "content-length", str_encode "3")];
      http_response_body (str_encode "abc") true;
      http_response_body [] false ] /\
  finished (conn (snd r)) = true.
Proof.
  intros H r. subst r. run_http H. auto.
Qed.

Lemma send_abc_finish_events_witness :
  let sc := http_scope "/" [] EmptyString in
  scope_type sc <> Some "websocket" /\
  sent (snd (send (PyStr "abc") true (new_world sc [] []))) =
    [ http_response_start 200 [(str_encode "content-length", str_encode "3")];
      http_response_body (str_encode "abc") true;
      http_response_body [] false ].
Proof.
  intros sc.
  assert (H : scope_type sc <> Some "websocket") by discriminate.
  split; [exact H|].
  exact (proj1 (proj2 (send_abc_finish_events sc [] [] H))).
Defined.

(** C8. On a fresh HTTP connection, [finish()] before any [send()] hands
    the server a response start with status 204 and then the empty body
    chunk with more-body false, and leaves the connection finished. *)
Theorem finish_before_send_204 (sc : Scope) (msgs : list asgi_in) (h : list dict) :
  scope_type sc <> Some "websocket" ->
  let r := finish (new_world sc msgs h) in
  fst r = Ok tt /\
  sent (snd r) = [ http_response_start 204 []; http_response_body [] false ] /\
  started (conn (snd r)) = true /\
  finished (conn (snd r)) = true /\
  resp_status_code (conn (snd r)) = Some 204.
Proof.
  intros H r. subst r. run_http H. auto.
Qed.

Lemma finish_before_send_204_witness :
  let sc := http_scope "/" [] EmptyString in
  scope_type sc <> Some "websocket" /\
  sent (snd (finish (new_world sc [] []))) =
    [ http_response_start 204 []; http_response_body [] false ].
Proof.
  intros sc.
  assert (H : scope_type sc <> Some "websocket") by discriminate.
  split; [exact H|].
  exact (proj1 (proj2 (finish_before_send_204 sc [] [] H))).
Defined.

(** A finished connection refuses a second [finish()] and any [send()]. *)
Example finish_twice_raises :
  let w := snd (finish (new_world (http_scope "/" [] EmptyString) [] [])) in
  fst (finish w) = Raise (ValueError "Connection already finished") /\
  fst (send (PyBytes []) false w) =
    Raise (ValueError "No message can be sent when connection closed") /\
  sent (snd (finish w)) = sent w.
Proof. vm_compute. auto. Qed.

(** ** The finishing send in general *)

Lemma conn_type_HTTP_scope (c : Connection) :
  conn_type c = HTTP -> scope_type (scope c) <> Some "websocket".
Proof. intros H E. rewrite (conn_type_websocket c E) in H. discriminate. Qed.

Lemma str_of_uint_ascii (u : Decimal.uint) :
  forallb is_ascii_byte (list_byte_of_string (NilEmpty.string_of_uint u)) = true.
Proof. induction u; simpl; auto. Qed.

Lemma encode_ascii_str_of_nat (n : nat) :
  encode_ascii (str_of_nat n) = Some (str_encode (str_of_nat n)).
Proof. unfold encode_ascii, str_of_nat. now rewrite str_of_uint_ascii. Qed.

Lemma encode_headers_app (h1 h2 : Headers) (e1 e2 : list (bytes * bytes)) :
  encode_headers h1 = Some e1 -> encode_headers h2 = Some e2 ->
  encode_headers (h1 ++ h2) = Some (e1 ++ e2).
Proof.
  revert e1. induction h1 as [|[k v] h1 IH]; intros e1; simpl.
  - now intros [= <-].
  - destruct (encode_ascii k), (encode_ascii v); try discriminate.
    destruct (encode_headers h1) as [r|]; [|discriminate].
    intros [= <-] H2. now rewrite (IH r eq_refl H2).
Qed.

(** A send that starts and finishes the response: the start carries the
    status in force and the headers with [content-length] added last,
    then come the body chunk and the empty final chunk. *)
Lemma send_finish_unstarted (w : World) (b : bytes)
    (hs cs : list (bytes * bytes)) :
  conn_type (conn w) = HTTP ->
  started (conn w) = false ->
  finished (conn w) = false ->
  encode_headers (resp_headers (conn w)) = Some hs ->
  encode_cookies (resp_cookies (conn w)) = Some cs ->
  send (PyBytes b) true w =
    (Ok tt,
     with_sent
       (sent w ++
        [ http_response_start (effective_status (resp_status_code (conn w)))
            (hs ++ [content_length_pair b] ++ cs);
          http_response_body b true;
          http_response_body [] false ])
       (with_conn (after_finishing_send b (conn w)) w)).
Proof.
  intros Ht Hs Hf Hh Hc. apply conn_type_HTTP_scope in Ht.
  destruct w as [c s i hp]. destruct c as [sc st fi rh rc code hb hm hl].
  simpl in *. subst st fi.
  assert (He : encode_headers (rh ++ [("content-length", str_of_nat (List.length b))])
               = Some (hs ++ [content_length_pair b])).
  { apply encode_headers_app; [assumption|]. simpl.
    now rewrite encode_ascii_str_of_nat. }
  unfold send, _http_send, finish, start_resp, put_resp_header, asgi_send,
    modify_conn, get_conn, bind, ret, raise, Headers_add.
  cbn -[conn_type encode_headers encode_cookies str_of_nat].
  repeat (rewrite conn_type_http by exact Ht;
          cbn -[conn_type encode_headers encode_cookies str_of_nat]).
  unfold after_finishing_send, with_sent, with_conn, Headers_add.
  destruct code as [z|]; [destruct (z =? 0) eqn:Ez|];
    cbn -[conn_type encode_headers encode_cookies str_of_nat];
    rewrite ?Ez;
    cbn -[conn_type encode_headers encode_cookies str_of_nat];
    rewrite He, Hc;
    cbn -[conn_type encode_headers encode_cookies str_of_nat];
    repeat (rewrite conn_type_http by exact Ht;
            cbn -[conn_type encode_headers encode_cookies str_of_nat]);
    rewrite <- ?app_assoc; reflexivity.
Qed.

(** ** Reading the request body *)

Lemma over_limit_Some_0 (c : Connection) : over_limit (Some 0) c = false.
Proof. reflexivity. Qed.

Lemma over_limit_None (c : Connection) : over_limit None c = false.
Proof. reflexivity. Qed.

(** A declared length of zero and a chunked body drive the loop alike. *)
Lemma body_iter_loop_zero_chunked (msgs : list asgi_in) :
  forall c, body_iter_loop (Some 0) msgs c = body_iter_loop None msgs c.
Proof.
  induction msgs as [|m msgs IH]; intros c; simpl.
  - reflexivity.
  - destruct (http_has_more_body c); simpl; [|reflexivity].
    destruct m as [b more| |t]; [|reflexivity|apply IH].
    destruct (chunk_of b) as [chunk|]; [|reflexivity].
    now rewrite IH.
Qed.

Lemma body_iter_loop_unlimited (rbl : option Z) (msgs : list asgi_in) :
  (forall c, over_limit rbl c = false) ->
  forall c ys o c' rest,
    body_iter_loop rbl msgs c = (ys, o, c', rest) ->
    o <> Raise (ValueError "body is longer than declared").
Proof.
  intros Hl. induction msgs as [|m msgs IH]; intros c ys o c' rest; simpl;
    rewrite Hl; destruct (http_has_more_body c); simpl;
    try (intros [= <- <- <- <-]; discriminate).
  destruct m as [b more| |t].
  - destruct (chunk_of b) as [chunk|]; [|intros [= <- <- <- <-]; discriminate].
    destruct (body_iter_loop rbl msgs (record_chunk chunk (default false more) c))
      as [[[ys1 o1] c1] r1] eqn:E.
    intros [= <- <- <- <-]. eapply IH, E.
  - intros [= <- <- <- <-]; discriminate.
  - apply IH.
Qed.

Lemma body_iter_loop_delivers (rbl : option Z) (msgs : list asgi_in) :
  (forall c, over_limit rbl c = false) ->
  Forall delivers_bytes msgs ->
  forall c, http_has_more_body c = true ->
    exists o c' rest,
      body_iter_loop rbl msgs c = (delivered_chunks msgs, o, c', rest) /\
      (o = Ok tt \/ o = Blocked).
Proof.
  intros Hl. induction 1 as [|m msgs Hm _ IH]; intros c Hc; simpl;
    rewrite Hl, Hc; simpl.
  - eauto 6.
  - destruct m as [b more| |t]; try contradiction.
    destruct Hm as [chunk Hb]. simpl in Hb. rewrite Hb.
    destruct more as [[|]|]; simpl.
    + destruct (IH (record_chunk chunk true c) eq_refl) as (o & c' & rest & -> & Ho).
      eauto 6.
    + destruct msgs; simpl; eauto 6.
    + destruct msgs; simpl; eauto 6.
Qed.

Lemma req_body_length_absent_or_zero (c : Connection) (hs : Headers) :
  req_headers c = Some hs ->
  Headers_get "content-length" hs = None \/
  Headers_get "content-length" hs = Some "0" ->
  req_body_length c = inr (Some 0) \/ req_body_length c = inr None.
Proof.
  intros Hh Hc. unfold req_body_length. rewrite Hh.
  destruct (negb _); [|now right].
  left. now destruct Hc as [-> | ->].
Qed.

(** C10. When the request carries no [content-length] header, or the
    header is ["0"], [body_iter()] enforces no length: it never raises
    "body is longer than declared", a declared length of zero drives the
    loop exactly as a chunked body does, and on a body not read yet every
    delivered chunk is yielded, whatever the total length, the generator
    ending normally or waiting for the next message. *)
Theorem body_iter_no_declared_length (w : World) (hs : Headers) :
  req_headers (conn w) = Some hs ->
  Headers_get "content-length" hs = None \/
  Headers_get "content-length" hs = Some "0" ->
  snd (fst (body_iter w)) <> Raise (ValueError "body is longer than declared") /\
  (forall msgs c, body_iter_loop (Some 0) msgs c = body_iter_loop None msgs c) /\
  (conn_type (conn w) = HTTP ->
   http_received_body_length (conn w) = 0%nat ->
   http_has_more_body (conn w) = true ->
   Forall delivers_bytes (inbox w) ->
   fst (fst (body_iter w)) = delivered_chunks (inbox w) /\
   (snd (fst (body_iter w)) = Ok tt \/ snd (fst (body_iter w)) = Blocked)).
Proof.
  intros Hh Hc.
  assert (Hl : forall rbl, req_body_length (conn w) = inr rbl ->
                           forall c, over_limit rbl c = false).
  { intros rbl E.
    destruct (req_body_length_absent_or_zero _ _ Hh Hc) as [E'|E'];
      rewrite E' in E; injection E as <-;
      [apply over_limit_Some_0|apply over_limit_None]. }
  split; [|split].
  - unfold body_iter. destruct (conn_type (conn w)); [|discriminate].
    destruct (_ && _); [discriminate|].
    destruct (req_body_length (conn w)) as [e|rbl] eqn:E.
    + destruct (req_body_length_absent_or_zero _ _ Hh Hc) as [E'|E'];
        rewrite E' in E; discriminate.
    + destruct (body_iter_loop rbl (inbox w) (conn w)) as [[[ys o] c'] rest] eqn:EL.
      simpl. eapply body_iter_loop_unlimited; [apply Hl; reflexivity|apply EL].
  - intros msgs c. apply body_iter_loop_zero_chunked.
  - intros Ht Hr Hm Hf. unfold body_iter. rewrite Ht, Hr, Hm. simpl.
    destruct (req_body_length (conn w)) as [e|rbl] eqn:E.
    + destruct (req_body_length_absent_or_zero _ _ Hh Hc) as [E'|E'];
        rewrite E' in E; discriminate.
    + destruct (body_iter_loop_delivers rbl (inbox w) (Hl rbl eq_refl) Hf (conn w) Hm)
        as (o & c' & rest & -> & Ho).
      simpl. auto.
Qed.

Lemma body_iter_no_declared_length_witness :
  let w := new_world (http_scope "/" [("content-length", "0")] EmptyString)
             (two_deliveries (str_encode "ab") (str_encode "cde")) [] in
  (req_headers (conn w) = Some [("content-length", "0")] /\
   Headers_get "content-length" [("content-length", "0")] = Some "0") /\
  fst (fst (body_iter w)) = [str_encode "ab"; str_encode "cde"] /\
  snd (fst (body_iter w)) <> Raise (ValueError "body is longer than declared").
Proof.
  intros w.
  assert (Hh : req_headers (conn w) = Some [("content-length", "0")])
    by reflexivity.
  assert (Hc : Headers_get "content-length" [("content-length", "0")] = Some "0")
    by reflexivity.
  destruct (body_iter_no_declared_length w _ Hh (or_intror Hc)) as (Hn & _ & Hy).
  split; [split; assumption|]. split; [|exact Hn].
  assert (Hf : Forall delivers_bytes (inbox w)).
  { repeat constructor; simpl; eauto. }
  exact (proj1 (Hy eq_refl eq_refl eq_refl Hf)).
Defined.

(** With three bytes declared and five delivered in two messages, the
    chunk that takes the total over three is yielded in every split; the
    length error comes only when the first chunk alone is too long, and
    then after that chunk was yielded. *)
Lemma body_iter_two_chunks (c1 c2 : bytes) :
  (List.length c1 + List.length c2 = 5)%nat ->
  fst (body_iter (new_world scope_declares_3 (two_deliveries c1 c2) [])) =
    if (List.length c1 <=? 3)%nat
    then ([c1; c2], Ok tt)
    else ([c1], Raise (ValueError "body is longer than declared")).
Proof.
  intros Hlen.
  assert (Hr : req_body_length (Connection_init scope_declares_3) = inr (Some 3))
    by (vm_compute; reflexivity).
  unfold body_iter, new_world, two_deliveries.
  cbn [conn inbox]. rewrite conn_type_http by discriminate. rewrite Hr.
  unfold over_limit. cbn -[Z.ltb Z.of_nat Nat.leb].
  destruct (Nat.leb_spec (List.length c1) 3) as [Hle|Hgt].
  - assert (E : (3 <? Z.of_nat (List.length c1)) = false) by lia.
    rewrite E. reflexivity.
  - assert (E : (3 <? Z.of_nat (List.length c1)) = true) by lia.
    rewrite E. reflexivity.
Qed.

(** C2. With [content-length: 3] and the body delivered as [ab] (more to
    come) then [cde] (final), five bytes in all, [body_iter()] yields both
    chunks and ends normally: no length error is raised, and the chunk
    over the limit is yielded. *)
Theorem body_iter_over_declared_length_accepted :
  fst (body_iter (new_world scope_declares_3
                    (two_deliveries (str_encode "ab") (str_encode "cde")) [])) =
    ([str_encode "ab"; str_encode "cde"], Ok tt).
Proof. vm_compute. reflexivity. Qed.

(** ** Query parameters *)

Lemma utf8_step_consumes (b0 : byte) (rest : bytes) :
  (1 <= snd (utf8_step b0 rest))%nat.
Proof.
  unfold utf8_step. destruct (utf8_trail b0) as [[|k]|]; simpl; try lia.
  destruct rest as [|b1 rest1]; simpl; try lia.
  destruct (negb _); simpl; try lia.
  destruct (_ =? _)%nat; simpl; lia.
Qed.

(** The scan of the decoder reaches the end of its input: the pieces it
    cuts, put together, are the input. *)
Lemma utf8_scan_covers (fuel : nat) :
  forall l : bytes,
    (List.length l <= fuel)%nat -> concat (map snd (utf8_scan fuel l)) = l.
Proof.
  induction fuel as [|f IH]; intros [|b0 rest] Hl; simpl in *; try reflexivity;
    try lia.
  pose proof (utf8_step_consumes b0 rest) as Hn.
  destruct (utf8_step b0 rest) as [ok n]. simpl in *.
  rewrite IH.
  - apply take_drop.
  - rewrite length_drop. simpl. lia.
Qed.

Lemma utf8_items_cover (l : bytes) : concat (map snd (utf8_items l)) = l.
Proof. apply utf8_scan_covers. lia. Qed.


(** C9. The query accessor decodes the whole query string before it is
    split, and the pair parser decodes each name and value again: the
    query string [a=1%26b%3D2] is first turned into [a=1&b=2] and then
    parsed to the two keys [a] (value [1]) and [b] (value [2]), whereas
    parsing the raw string gives the single key [a] with value [1&b=2]. *)
Theorem query_decodes_before_split (c : Connection) :
  scope_query_string (scope c) = str_encode encoded_pair_query ->
  unquote_plus (scope_query_string (scope c)) = str_encode "a=1&b=2" /\
  query c = Some [("a", ["1"]); ("b", ["2"])] /\
  (forall d, query c = Some d ->
             MultiDict_get "a" d = Some "1" /\ MultiDict_get "b" d = Some "2") /\
  MultiDict_init (parse_qsl (scope_query_string (scope c))) = [("a", ["1&b=2"])].
Proof.
  intros H.
  assert (Hq : query c = Some [("a", ["1"]); ("b", ["2"])])
    by (unfold query; rewrite H; vm_compute; reflexivity).
  rewrite H. split; [reflexivity|]. split; [exact Hq|]. split; [|reflexivity].
  intros d Hd. rewrite Hq in Hd. injection Hd as <-. split; reflexivity.
Qed.

Lemma query_decodes_before_split_witness :
  let c := Connection_init (http_scope "/" [] encoded_pair_query) in
  scope_query_string (scope c) = str_encode encoded_pair_query /\
  query c = Some [("a", ["1"]); ("b", ["2"])].
Proof.
  intros c. split; [reflexivity|].
  exact (proj1 (proj2 (query_decodes_before_split c eq_refl))).
Defined.

(** The second decoding also acts on escapes that the first one produced:
    [%2541] becomes [%41] and then [A]; an encoded [+] becomes a space. *)
Example query_double_decoding :
  query (Connection_init (http_scope "/" [] "a=%2541&e=1+2%2B")) =
    Some [("a", ["A"]); ("e", ["1 2 "])].
Proof. vm_compute. reflexivity. Qed.

(** The spec's example of repeated keys. *)
Example query_repeated_keys :
  query (Connection_init (http_scope "/" [] "a=1&b=2&a=3")) =
    Some [("a", ["1"; "3"]); ("b", ["2"])].
Proof. vm_compute. reflexivity. Qed.

(** ** Route registration *)

Section AddRoute.

Variable Rule_error : string -> option exn.

Lemma add_route_registers (rs : string) (A : Handler) (n : string)
    (m : option (gset string)) (r r1 : Router) :
  n <> EmptyString ->
  add_route Rule_error rs A (Some n) m r = inr r1 ->
  endpoint_to_handler r1 !! n = Some A.
Proof.
  intros Hn. unfold add_route.
  destruct (String.eqb_spec n EmptyString) as [E|_]; [contradiction|].
  destruct (match endpoint_to_handler r !! n with
            | Some e => negb (handler_is e A) | None => false end);
    [discriminate|].
  destruct (Rule_error rs); [discriminate|].
  intros [= <-]. simpl. apply lookup_insert_eq.
Qed.

(** C3, as the code has it. After handler A is registered under a name,
    registering a handler with another identity under that name raises
    [ValueError("Duplicated route name: ...")]; registering A again
    under the name raises nothing, leaves the name-to-handler map as it
    was, and appends one more rule to the pattern map. *)
Theorem add_route_same_name (rs1 rs2 : string) (A B : Handler) (n : string)
    (m1 m2 : option (gset string)) (r r1 : Router) :
  n <> EmptyString ->
  add_route Rule_error rs1 A (Some n) m1 r = inr r1 ->
  (handler_id B <> handler_id A ->
   add_route Rule_error rs2 B (Some n) m2 r1 =
     inl (ValueError (String.append "Duplicated route name: " n))) /\
  (Rule_error rs2 = None ->
   add_route Rule_error rs2 A (Some n) m2 r1 =
     inr {| url_map := url_map r1 ++ [{| rule_string := rs2;
                                         endpoint := n;
                                         methods := m2 |}];
            endpoint_to_handler := endpoint_to_handler r1 |}).
Proof.
  intros Hn H1.
  pose proof (add_route_registers _ _ _ _ _ _ Hn H1) as HA.
  split.
  - intros HB. unfold add_route.
    destruct (String.eqb_spec n EmptyString) as [E|_]; [contradiction|].
    rewrite HA. unfold handler_is.
    destruct (Nat.eqb_spec (handler_id A) (handler_id B)) as [E|_];
      [now contradict HB|reflexivity].
  - intros Hr. unfold add_route.
    destruct (String.eqb_spec n EmptyString) as [E|_]; [contradiction|].
    rewrite HA. unfold handler_is. rewrite Nat.eqb_refl. simpl.
    rewrite Hr. now rewrite (insert_id _ _ _ HA).
Qed.

End AddRoute.

Lemma add_route_same_name_witness :
  let A := sample_handler 0 "hello" in
  let B := sample_handler 1 "bye" in
  let r1 := {| url_map := [{| rule_string := "/a"; endpoint := "x"; methods := None |}];
               endpoint_to_handler := <["x" := A]> ∅ |} in
  ("x" <> EmptyString /\
   add_route accept_all_rules "/a" A (Some "x") None Router_init = inr r1) /\
  add_route accept_all_rules "/b" B (Some "x") None r1 =
    inl (ValueError "Duplicated route name: x").
Proof.
  intros A B r1.
  assert (Hn : "x" <> EmptyString) by discriminate.
  assert (H1 : add_route accept_all_rules "/a" A (Some "x") None Router_init = inr r1)
    by reflexivity.
  split; [split; assumption|].
  apply (proj1 (add_route_same_name accept_all_rules "/a" "/b" A B "x" None None
                  Router_init r1 Hn H1)).
  discriminate.
Defined.

(** C3 as stated fails: registering the same handler twice under ["x"]
    does not leave the pattern map unchanged. *)
Lemma add_route_twice_not_noop :
  let A := sample_handler 0 "hello" in
  ~ (forall r1 r2,
       add_route accept_all_rules "/a" A (Some "x") None Router_init = inr r1 ->
       add_route accept_all_rules "/a" A (Some "x") None r1 = inr r2 ->
       url_map r2 = url_map r1 /\
       endpoint_to_handler r2 = endpoint_to_handler r1).
Proof.
  intros A Hclaim.
  set (rule := {| rule_string := "/a"; endpoint := "x"; methods := None |}).
  set (r1 := {| url_map := [rule]; endpoint_to_handler := <["x" := A]> ∅ |}).
  set (r2 := {| url_map := [rule; rule];
                endpoint_to_handler := <["x" := A]> (<["x" := A]> ∅) |}).
  assert (H1 : add_route accept_all_rules "/a" A (Some "x") None Router_init = inr r1)
    by reflexivity.
  assert (H2 : add_route accept_all_rules "/a" A (Some "x") None r1 = inr r2)
    by reflexivity.
  destruct (Hclaim r1 r2 H1 H2) as [Hu _]. discriminate Hu.
Qed.

(** ** JSON responses *)

Lemma put_resp_headers_run (d : dict) :
  forall w,
    put_resp_headers d w =
      (Ok tt, with_conn (set_resp_headers (resp_headers (conn w) ++ d) (conn w)) w).
Proof.
  induction d as [|[k v] d IH]; intros [[sc st fi rh rc code hb hm hl] s i hp].
  - unfold with_conn, set_resp_headers. simpl. now rewrite app_nil_r.
  - simpl. unfold bind, put_resp_header, modify_conn. simpl. rewrite IH.
    unfold with_conn, set_resp_headers, Headers_add. simpl.
    now rewrite <- app_assoc.
Qed.

Lemma dict_setitem_In (k v : string) (d : dict) : In (k, v) (dict_setitem k v d).
Proof.
  induction d as [|[k' v'] d IH]; simpl; [now left|].
  destruct (String.eqb_spec k k') as [->|]; [now left|now right].
Qed.

Lemma dict_get_setitem_ne (k k0 v : string) (d : dict) :
  k0 <> k -> dict_get k0 (dict_setitem k v d) = dict_get k0 d.
Proof.
  intros Hne. induction d as [|[k' v'] d IH]; simpl.
  - destruct (String.eqb_spec k0 k); [contradiction|reflexivity].
  - destruct (String.eqb_spec k k') as [->|]; simpl.
    + destruct (String.eqb_spec k0 k'); [contradiction|reflexivity].
    + now rewrite IH.
Qed.

Lemma encode_headers_In (k v : string) (h : Headers) (e : list (bytes * bytes)) :
  encode_headers h = Some e -> In (k, v) h -> In (str_encode k, str_encode v) e.
Proof.
  revert e. induction h as [|[k' v'] h IH]; intros e; simpl; [tauto|].
  unfold encode_ascii at 1 2.
  destruct (forallb is_ascii_byte (list_byte_of_string k')); [|discriminate].
  destruct (forallb is_ascii_byte (list_byte_of_string v')); [|discriminate].
  destruct (encode_headers h) as [r|]; [|discriminate].
  intros [= <-] [[= -> ->]|Hin]; [now left|right; now apply IH].
Qed.

Ltac split_world w :=
  destruct w as [[?sc ?st ?fi ?rh ?rc ?code ?hb ?hm ?hl] ?s ?i ?hp].

Ltac case_conn_type :=
  repeat match goal with
         | |- context [conn_type ?c] => destruct (conn_type c); cbn -[conn_type]
         end.

(** The header loop of [HttpResponse.__await__] after the status code is
    assigned. *)
Lemma await_headers_run (r : HttpResponse) (w : World) :
  (match hr_headers r with
   | None => ret tt
   | Some l => let* d := dict_items l in
               match d with [] => ret tt | _ => put_resp_headers d end
   end) w =
  (Ok tt,
   with_conn (set_resp_headers (resp_headers (conn w) ++ response_headers r w)
                (conn w)) w).
Proof.
  unfold response_headers. split_world w.
  destruct (hr_headers r) as [l|].
  - unfold bind, dict_items. cbn [heap with_conn].
    destruct (default [] (hp !! l : option dict)) as [|kv d].
    + unfold ret, with_conn, set_resp_headers. simpl. now rewrite app_nil_r.
    + now rewrite put_resp_headers_run.
  - unfold ret, with_conn, set_resp_headers. simpl. now rewrite app_nil_r.
Qed.

Lemma send_encoded (data : pydata) (b : bytes) (f : bool) (w : World) :
  encode_if_str data = Some b -> send data f w = send (PyBytes b) f w.
Proof. intros H. unfold send. simpl. now rewrite H. Qed.

(** Awaiting a bound response on a connection not started yet: its status
    code and its header entries go into the response start. *)
Lemma HttpResponse_await_unstarted (r : HttpResponse) (w : World) (b : bytes)
    (hs cs : list (bytes * bytes)) :
  hr_connection r = true ->
  encode_if_str (hr_body r) = Some b ->
  conn_type (conn w) = HTTP ->
  started (conn w) = false ->
  finished (conn w) = false ->
  encode_headers (resp_headers (conn w) ++ response_headers r w) = Some hs ->
  encode_cookies (resp_cookies (conn w)) = Some cs ->
  let res := HttpResponse_await r w in
  fst res = Ok tt /\
  sent (snd res) =
    sent w ++
    [ http_response_start (effective_status (Some (hr_status_code r)))
        (hs ++ [content_length_pair b] ++ cs);
      http_response_body b true;
      http_response_body [] false ] /\
  resp_headers (conn (snd res)) =
    resp_headers (conn w) ++ response_headers r w
    ++ [("content-length", str_of_nat (List.length b))] /\
  finished (conn (snd res)) = true.
Proof.
  intros Hb Hd Ht Hs Hf Hh Hc res.
  set (w1 := with_conn (set_resp_status_code (Some (hr_status_code r)) (conn w)) w).
  set (w2 := with_conn (set_resp_headers
                          (resp_headers (conn w) ++ response_headers r w) (conn w1)) w1).
  assert (Heq : res = send (PyBytes b) true w2).
  { subst res. unfold HttpResponse_await. rewrite Hb. cbn [negb].
    unfold bind at 1. unfold modify_conn at 1. fold w1.
    unfold bind at 1. rewrite (await_headers_run r w1). now apply send_encoded. }
  rewrite Heq.
  rewrite (send_finish_unstarted w2 b hs cs); subst w2 w1; try assumption.
  cbn. rewrite <- app_assoc. auto.
Qed.

(** C1, the case that fails. A [JsonResponse] built with no [headers]
    argument puts [content-type] into a dictionary of its own that the
    response never refers to: its [headers] stay [None], and awaiting it
    on a fresh HTTP connection sends a response start whose only header is
    [content-length]. *)
Theorem JsonResponse_without_headers (Json : Type) (dumps : Json -> string)
    (data : Json) (sc : Scope) (msgs : list asgi_in) (h : list dict) :
  scope_type sc <> Some "websocket" ->
  let built := JsonResponse_init dumps data true no_kwargs (new_world sc msgs h) in
  let b := str_encode (dumps data) in
  exists resp,
    fst built = Ok resp /\
    hr_headers resp = None /\
    heap (snd built) = h ++ [[("content-type", "application/json")]] /\
    let r := HttpResponse_await resp (snd built) in
    fst r = Ok tt /\
    sent (snd r) =
      [ http_response_start 200 [content_length_pair b];
        http_response_body b true;
        http_response_body [] false ] /\
    resp_headers (conn (snd r)) = [("content-length", str_of_nat (List.length b))].
Proof.
  intros Hsc built b.
  eexists. split; [reflexivity|]. split; [reflexivity|]. split.
  - cbn. rewrite <- (Nat.add_0_r (List.length h)). now rewrite alter_app_r.
  - cbv zeta.
    destruct (HttpResponse_await_unstarted
                (HttpResponse_init (PyStr (dumps data)) true no_kwargs)
                (snd built) b [] [])
      as (H1 & H2 & H3 & _); try reflexivity.
    + now apply conn_type_http.
    + auto.
Qed.

Lemma JsonResponse_without_headers_witness :
  let sc := http_scope "/hello/world" [] EmptyString in
  scope_type sc <> Some "websocket" /\
  exists resp w1,
    JsonResponse_init dumps_hello tt true no_kwargs (new_world sc [] []) = (Ok resp, w1) /\
    sent (snd (HttpResponse_await resp w1)) =
      [ http_response_start 200 [(str_encode "content-length", str_encode "18")];
        http_response_body (str_encode hello_world_text) true;
        http_response_body [] false ].
Proof.
  intros sc.
  assert (Hsc : scope_type sc <> Some "websocket") by discriminate.
  split; [exact Hsc|].
  destruct (JsonResponse_without_headers unit dumps_hello tt sc [] [] Hsc)
    as (resp & Hb & _ & _ & _ & Hsent & _).
  exists resp, (snd (JsonResponse_init dumps_hello tt true no_kwargs (new_world sc [] []))).
  split.
  - rewrite <- Hb. now destruct (JsonResponse_init _ _ _ _ _).
  - exact Hsent.
Defined.

(** The sibling path: with a [headers] dictionary given, the dictionary
    itself receives the [content-type] entry, the response refers to it,
    and the response start carries its entries, the keys other than
    [content-type] as the caller set them. *)
Lemma JsonResponse_with_headers (Json : Type) (dumps : Json -> string)
    (data : Json) (sc : Scope) (msgs : list asgi_in) (h : list dict)
    (l : nat) (d : dict) (hs : list (bytes * bytes)) :
  scope_type sc <> Some "websocket" ->
  h !! l = Some d ->
  encode_headers (dict_setitem "content-type" "application/json" d) = Some hs ->
  let kw := {| kw_status_code := None; kw_headers := Some (Some l) |} in
  let built := JsonResponse_init dumps data true kw (new_world sc msgs h) in
  let b := str_encode (dumps data) in
  exists resp,
    fst built = Ok resp /\
    hr_headers resp = Some l /\
    heap (snd built) !! l = Some (dict_setitem "content-type" "application/json" d) /\
    (forall k, k <> "content-type" ->
               dict_get k (dict_setitem "content-type" "application/json" d)
               = dict_get k d) /\
    In (str_encode "content-type", str_encode "application/json") hs /\
    let r := HttpResponse_await resp (snd built) in
    fst r = Ok tt /\
    sent (snd r) =
      [ http_response_start 200 (hs ++ [content_length_pair b]);
        http_response_body b true;
        http_response_body [] false ].
Proof.
  intros Hsc Hl He kw built b.
  assert (Hh : alter (dict_setitem "content-type" "application/json") l h !! l
               = Some (dict_setitem "content-type" "application/json" d))
    by (now rewrite list_lookup_alter_eq, Hl).
  eexists. split; [reflexivity|]. split; [reflexivity|].
  split; [exact Hh|].
  split; [intros k Hk; now apply dict_get_setitem_ne|].
  split; [eapply encode_headers_In; [exact He|apply dict_setitem_In]|].
  cbv zeta.
  destruct (HttpResponse_await_unstarted
              (HttpResponse_init (PyStr (dumps data)) true kw) (snd built) b hs [])
    as (H1 & H2 & _); try reflexivity.
  - now apply conn_type_http.
  - unfold response_headers.
    change (hr_headers (HttpResponse_init (PyStr (dumps data)) true kw)) with (Some l).
    change (heap (snd built))
      with (alter (dict_setitem "content-type" "application/json") l h).
    cbv beta iota. rewrite Hh. exact He.
  - split; [exact H1|]. rewrite H2. now rewrite app_nil_r.
Qed.


(** The spec's example: with [headers={"x-trace": "1"}] both headers are
    in the response start, and the caller's dictionary now holds both. *)
Example JsonResponse_x_trace :
  let kw := {| kw_status_code := None; kw_headers := Some (Some 0%nat) |} in
  let w := new_world (http_scope "/" [] EmptyString) [] [trace_headers] in
  let built := JsonResponse_init dumps_hello tt true kw w in
  heap (snd built) = [[("x-trace", "1"); ("content-type", "application/json")]] /\
  exists resp,
    fst built = Ok resp /\
    sent (snd (HttpResponse_await resp (snd built))) =
      [ http_response_start 200
          [ (str_encode "x-trace", str_encode "1");
            (str_encode "content-type", str_encode "application/json");
            (str_encode "content-length", str_encode "18") ];
        http_response_body (str_encode hello_world_text) true;
        http_response_body [] false ].
Proof. split; [reflexivity|]. eexists. split; reflexivity. Qed.

(** ** Router dispatch: no matching rule *)

Lemma effective_status_unset (s : option Z) :
  status_unset s = true -> effective_status s = 200.
Proof. destruct s as [z|]; simpl; [now intros ->|reflexivity]. Qed.

(** C5. When the match of the request finds no rule, the router does a
    finishing send of [Not Found] and nothing else: it sets no status
    code. On an HTTP connection not started yet and with no status code
    set, the response start therefore carries status 200, followed by the
    body chunk [Not Found] and the final empty chunk. *)
Theorem Router_call_not_found
    (url_match : UrlBinding -> option string -> MatchOutcome)
    (r : Router) (w : World) (b : UrlBinding) (hs cs : list (bytes * bytes)) :
  get_url_binding_for_connection r (conn w) = Some b ->
  url_match b (scope_method (scope (conn w))) = NotFound ->
  Router_call url_match r w = send (PyBytes (str_encode "Not Found")) true w /\
  (conn_type (conn w) = HTTP ->
   started (conn w) = false ->
   finished (conn w) = false ->
   status_unset (resp_status_code (conn w)) = true ->
   encode_headers (resp_headers (conn w)) = Some hs ->
   encode_cookies (resp_cookies (conn w)) = Some cs ->
   let res := Router_call url_match r w in
   fst res = Ok tt /\
   sent (snd res) =
     sent w ++
     [ http_response_start 200
         (hs ++ [(str_encode "content-length", str_encode "9")] ++ cs);
       http_response_body (str_encode "Not Found") true;
       http_response_body [] false ] /\
   resp_status_code (conn (snd res)) = Some 200 /\
   finished (conn (snd res)) = true).
Proof.
  intros Hb Hm.
  assert (Heq : Router_call url_match r w
                = send (PyBytes (str_encode "Not Found")) true w).
  { unfold Router_call. unfold bind at 1. unfold get_conn at 1.
    now rewrite Hb, Hm. }
  split; [exact Heq|].
  intros Ht Hs Hf Hu Hh Hc res. subst res. rewrite Heq.
  rewrite (send_finish_unstarted w _ hs cs Ht Hs Hf Hh Hc).
  cbn. rewrite (effective_status_unset _ Hu). auto.
Qed.

Lemma Router_call_not_found_witness :
  let w := new_world (http_scope "/missing" [("host", "localhost")] EmptyString) [] [] in
  let res := Router_call match_nothing Router_init w in
  fst res = Ok tt /\
  sent (snd res) =
    [ http_response_start 200 [(str_encode "content-length", str_encode "9")];
      http_response_body (str_encode "Not Found") true;
      http_response_body [] false ] /\
  resp_status_code (conn (snd res)) = Some 200 /\
  finished (conn (snd res)) = true.
Proof.
  intros w.
  exact (proj2 (Router_call_not_found match_nothing Router_init w
                  {| bound_map := []; server_name := Some "localhost";
                     path_info := Some "/missing"; script_name := None;
                     url_scheme := Some "http"; query_args := [] |}
                  [] [] eq_refl eq_refl)
           eq_refl eq_refl eq_refl eq_refl eq_refl eq_refl).
Defined.

(** The sibling branches set a status code before the same finishing
    send: 405 for a method that is not allowed. *)
Example Router_call_method_not_allowed :
  let w := new_world (http_scope "/" [("host", "localhost")] EmptyString) [] [] in
  sent (snd (Router_call match_other_method Router_init w)) =
    [ http_response_start 405 [(str_encode "content-length", str_encode "0")];
      http_response_body [] true;
      http_response_body [] false ].
Proof. reflexivity. Qed.

(** ** The composed application *)

Lemma run_routers_app (pre rest : list (M unit)) (w w1 : World) :
  runs_unfinished pre w w1 ->
  run_routers (pre ++ rest) w = run_routers rest w1.
Proof.
  induction 1 as [w|s pre w w1 w2 Hs Hf _ IH]; [reflexivity|].
  simpl. unfold bind at 1. rewrite Hs.
  unfold bind at 1. unfold get_conn at 1. now rewrite Hf.
Qed.

(** C6. The application built by [Servitor], run on the connection it
    creates: the stages run in order; as soon as a stage leaves the
    connection finished the application returns with the world that stage
    left, whatever stages follow; when every stage ran and none finished
    the connection, the application calls [finish()] if the response is
    started, and otherwise sets status code 404 and does a finishing send
    of the text [Not found]. *)
Theorem Servitor_dispatch (routers : list (M unit)) (sc : Scope)
    (msgs : list asgi_in) (h : list dict) :
  let w0 := new_world sc msgs h in
  (forall pre s post w1 w2,
     routers = pre ++ s :: post ->
     runs_unfinished pre w0 w1 ->
     s w1 = (Ok tt, w2) ->
     finished (conn w2) = true ->
     Servitor routers sc msgs h = (Ok tt, w2)) /\
  (forall w1,
     runs_unfinished routers w0 w1 ->
     started (conn w1) = true ->
     Servitor routers sc msgs h = finish w1) /\
  (forall w1,
     runs_unfinished routers w0 w1 ->
     started (conn w1) = false ->
     Servitor routers sc msgs h =
       send (PyStr "Not found") true
         (with_conn (set_resp_status_code (Some 404) (conn w1)) w1)).
Proof.
  intros w0. unfold Servitor, asgi_app. fold w0. repeat split.
  - intros pre s post w1 w2 -> Hpre Hs Hf.
    unfold bind at 1. rewrite (run_routers_app _ _ _ _ Hpre).
    simpl. unfold bind at 1. rewrite Hs.
    unfold bind at 1. unfold get_conn at 1. now rewrite Hf.
  - intros w1 Hr Hst.
    unfold bind at 1.
    rewrite <- (app_nil_r routers), (run_routers_app _ _ _ _ Hr). simpl.
    unfold bind at 1. unfold get_conn at 1. now rewrite Hst.
  - intros w1 Hr Hst.
    unfold bind at 1.
    rewrite <- (app_nil_r routers), (run_routers_app _ _ _ _ Hr). simpl.
    unfold bind at 1. unfold get_conn at 1. now rewrite Hst.
Qed.

(** The three cases on sample stages: a stage that finishes hides the
    stage after it; a stage that only starts the response gets it
    finished; with no stage at all the 404 response is sent. *)
Lemma Servitor_dispatch_witness :
  let sc := http_scope "/" [] EmptyString in
  sent (snd (Servitor [send (PyStr "hi") true; stage_sends "never"] sc [] [])) =
    [ http_response_start 200 [(str_encode "content-length", str_encode "2")];
      http_response_body (str_encode "hi") true;
      http_response_body [] false ] /\
  sent (snd (Servitor [stage_sends "hi"] sc [] [])) =
    [ http_response_start 200 [];
      http_response_body (str_encode "hi") true;
      http_response_body [] false ] /\
  sent (snd (Servitor [] sc [] [])) =
    [ http_response_start 404 [(str_encode "content-length", str_encode "9")];
      http_response_body (str_encode "Not found") true;
      http_response_body [] false ].
Proof.
  intros sc.
  destruct (Servitor_dispatch [send (PyStr "hi") true; stage_sends "never"] sc [] [])
    as (Ha & _ & _).
  destruct (Servitor_dispatch [stage_sends "hi"] sc [] []) as (_ & Hb & _).
  destruct (Servitor_dispatch [] sc [] []) as (_ & _ & Hc).
  set (w0 := new_world sc [] []).
  split; [|split].
  - rewrite (Ha [] (send (PyStr "hi") true) [stage_sends "never"] w0
               (snd (send (PyStr "hi") true w0))
               eq_refl (runs_nil _) eq_refl eq_refl).
    reflexivity.
  - rewrite (Hb (snd (stage_sends "hi" w0))
               (runs_cons (stage_sends "hi") [] w0 _ _ eq_refl eq_refl (runs_nil _))
               eq_refl).
    reflexivity.
  - rewrite (Hc w0 (runs_nil _) eq_refl). reflexivity.
Defined.

(** ** The status code once the response is started *)

(** On a started response a send changes no status code and sends no
    second response start. *)
Lemma send_when_started (d : pydata) (f : bool) (w : World) :
  started (conn w) = true ->
  let res := send d f w in
  resp_status_code (conn (snd res)) = resp_status_code (conn w) /\
  exists more,
    sent (snd res) = sent w ++ more /\
    forall st hs, ~ In (http_response_start st hs) more.
Proof.
  split_world w. cbn [conn started]. intros ->.
  unfold send, _http_send, finish, start_resp, put_resp_header, asgi_send,
    modify_conn, get_conn, bind, ret, raise.
  cbn -[conn_type].
  destruct fi, f; case_conn_type; (split; [reflexivity|]);
    rewrite <- ?app_assoc;
    first [ exists []; split; [now rewrite app_nil_r | intros ? ? []]
          | eexists; split;
            [reflexivity
            | cbn; intros ? ? H;
              repeat (destruct H as [H|H]; [discriminate H|]); exact H ] ].
Qed.

Lemma body_iter_loop_status (rbl : option Z) (msgs : list asgi_in) :
  forall c ys o c' rest,
    body_iter_loop rbl msgs c = (ys, o, c', rest) ->
    resp_status_code c' = resp_status_code c.
Proof.
  induction msgs as [|m msgs IH]; intros c ys o c' rest; simpl;
    destruct (http_has_more_body c); simpl;
    destruct (over_limit rbl c);
    try (intros [= <- <- <- <-]; reflexivity).
  destruct m as [b more| |t].
  - destruct (chunk_of b) as [chunk|]; [|intros [= <- <- <- <-]; reflexivity].
    destruct (body_iter_loop rbl msgs (record_chunk chunk (default false more) c))
      as [[[ys1 o1] c1] r1] eqn:E.
    intros [= <- <- <- <-]. now rewrite (IH _ _ _ _ _ E).
  - intros [= <- <- <- <-]; reflexivity.
  - apply IH.
Qed.

Lemma body_iter_status (w : World) :
  resp_status_code (conn (snd (body_iter w))) = resp_status_code (conn w).
Proof.
  unfold body_iter. destruct (conn_type (conn w)); [|reflexivity].
  destruct (_ && _); [reflexivity|].
  destruct (req_body_length (conn w)) as [e|rbl]; [reflexivity|].
  destruct (body_iter_loop rbl (inbox w) (conn w)) as [[[ys o] c'] rest] eqn:E.
  simpl. eapply body_iter_loop_status, E.
Qed.

Section StatusCode.

Variable Morsel_set : option string -> string -> string -> exn + string.

(** C4, as the code has it. Once the response is started, the operations
    of the connection itself ([send], [finish], [start_resp],
    [put_resp_header], [put_resp_cookie], [body]) leave the status code
    unchanged, and awaiting an [HttpResponse] sends no second response
    start, so the status the server was given stays the one on the wire;
    but awaiting a bound [HttpResponse] assigns its status code to the
    connection even though the response is started. *)
Theorem status_code_after_start :
  (forall d f, keeps_status (send d f)) /\
  keeps_status finish /\
  keeps_status start_resp /\
  (forall k v, keeps_status (put_resp_header k v)) /\
  (forall k v, keeps_status (put_resp_cookie Morsel_set k v)) /\
  keeps_status body /\
  (forall r w,
     started (conn w) = true ->
     let res := HttpResponse_await r w in
     (hr_connection r = true ->
      resp_status_code (conn (snd res)) = Some (hr_status_code r)) /\
     exists more,
       sent (snd res) = sent w ++ more /\
       forall st hs, ~ In (http_response_start st hs) more).
Proof.
  refine (conj _ (conj _ (conj _ (conj _ (conj _ (conj _ _)))))).
  - intros d f w Hs. apply (send_when_started d f w Hs).
  - intros w. split_world w. cbn [conn started]. intros ->.
    unfold finish, start_resp, asgi_send, modify_conn, get_conn, bind, ret, raise.
    cbn -[conn_type]. destruct fi; case_conn_type; reflexivity.
  - intros w. split_world w. cbn [conn started]. intros ->. reflexivity.
  - intros k v w _. reflexivity.
  - intros k v w _. unfold put_resp_cookie, bind, get_conn, modify_conn, raise.
    cbn [conn]. destruct (Morsel_set _ k v); reflexivity.
  - intros w _. unfold body.
    pose proof (body_iter_status w) as H.
    destruct (body_iter w) as [[ys [u|e|]] w']; exact H.
  - intros r w Hs res. unfold HttpResponse_await in res. subst res. split.
    + intros Hb. rewrite Hb.
      cbn [negb]. unfold bind at 1. unfold modify_conn at 1.
      unfold bind at 1. rewrite await_headers_run.
      match goal with
      | |- context [send ?d ?f ?w2] =>
          destruct (send_when_started d f w2) as [E _]; [exact Hs|rewrite E]
      end.
      reflexivity.
    + destruct (hr_connection r); cbn [negb].
      * unfold bind at 1. unfold modify_conn at 1.
        unfold bind at 1. rewrite await_headers_run.
        match goal with
        | |- context [send ?d ?f ?w2] =>
            destruct (send_when_started d f w2) as [_ E]; [exact Hs|exact E]
        end.
      * exists []. split; [now rewrite app_nil_r | intros ? ? []].
Qed.

End StatusCode.

Lemma status_code_after_start_witness :
  started (conn started_world) = true /\
  resp_status_code (conn started_world) = Some 200 /\
  resp_status_code (conn (snd (send (PyStr "b") true started_world))) = Some 200 /\
  resp_status_code (conn (snd (finish started_world))) = Some 200.
Proof.
  assert (Hs : started (conn started_world) = true) by reflexivity.
  destruct (status_code_after_start plain_morsel) as (Hsend & Hfin & _).
  split; [exact Hs|]. split; [reflexivity|]. split.
  - rewrite (Hsend (PyStr "b") true started_world Hs). reflexivity.
  - rewrite (Hfin started_world Hs). reflexivity.
Defined.

(** C4 as stated fails: on the started exchange the status code is 200,
    and awaiting a response with status 500 turns it into 500. *)
Lemma HttpResponse_await_overwrites_status :
  ~ (forall r, keeps_status (HttpResponse_await r)).
Proof.
  intros Hclaim.
  specialize (Hclaim response_500 started_world eq_refl).
  vm_compute in Hclaim. discriminate Hclaim.
Qed.

(** * Further properties of the code *)

(** ** The exact effect of [send] and [finish] *)

Ltac unfold_conn :=
  unfold send, _http_send, finish, start_resp, put_resp_header, asgi_send,
    modify_conn, get_conn, bind, ret, raise, Headers_add.

Ltac simp_conn := cbn -[conn_type encode_headers encode_cookies str_of_nat].

(** [finish()] before anything was sent forces status 204, whatever status
    code was set, and adds no [content-length]. *)
Theorem finish_unstarted_forces_204 (w : World) (hs cs : list (bytes * bytes)) :
  conn_type (conn w) = HTTP ->
  started (conn w) = false ->
  finished (conn w) = false ->
  encode_headers (resp_headers (conn w)) = Some hs ->
  encode_cookies (resp_cookies (conn w)) = Some cs ->
  let res := finish w in
  fst res = Ok tt /\
  sent (snd res) =
    sent w ++ [http_response_start 204 (hs ++ cs); http_response_body [] false] /\
  resp_status_code (conn (snd res)) = Some 204 /\
  resp_headers (conn (snd res)) = resp_headers (conn w) /\
  started (conn (snd res)) = true /\
  finished (conn (snd res)) = true.
Proof.
  intros Ht Hs Hf Hh Hc. apply conn_type_HTTP_scope in Ht.
  split_world w. simpl in *. subst st fi.
  unfold_conn. simp_conn.
  repeat (rewrite conn_type_http by exact Ht; simp_conn).
  rewrite Hh, Hc. simp_conn. rewrite <- app_assoc. auto 7.
Qed.

Lemma finish_unstarted_forces_204_witness :
  let w := snd (modify_conn (set_resp_status_code (Some 404))
                  (new_world (http_scope "/" [] EmptyString) [] [])) in
  resp_status_code (conn w) = Some 404 /\
  sent (snd (finish w)) =
    [http_response_start 204 []; http_response_body [] false].
Proof.
  intros w. split; [reflexivity|].
  exact (proj1 (proj2 (finish_unstarted_forces_204 w [] []
                         eq_refl eq_refl eq_refl eq_refl eq_refl))).
Defined.

(** A first [send] that does not finish starts the response with the
    headers as they are: no [content-length] is added, and the response
    stays open. *)
Theorem send_first_chunk (w : World) (d : pydata) (hs cs : list (bytes * bytes)) :
  conn_type (conn w) = HTTP ->
  started (conn w) = false ->
  finished (conn w) = false ->
  encode_headers (resp_headers (conn w)) = Some hs ->
  encode_cookies (resp_cookies (conn w)) = Some cs ->
  let res := send d false w in
  fst res = Ok tt /\
  sent (snd res) =
    sent w ++
    [ http_response_start (effective_status (resp_status_code (conn w))) (hs ++ cs);
      http_response_body (default [] (encode_if_str d)) true ] /\
  resp_headers (conn (snd res)) = resp_headers (conn w) /\
  started (conn (snd res)) = true /\
  finished (conn (snd res)) = false.
Proof.
  intros Ht Hs Hf Hh Hc. apply conn_type_HTTP_scope in Ht.
  split_world w. simpl in *. subst st fi.
  unfold_conn. simp_conn.
  repeat (rewrite conn_type_http by exact Ht; simp_conn).
  destruct code as [z|]; [destruct (z =? 0) eqn:Ez|];
    simp_conn; rewrite ?Ez; simp_conn; rewrite Hh, Hc; simp_conn;
    rewrite <- app_assoc; auto.
Qed.

Lemma send_first_chunk_witness :
  let w := new_world (http_scope "/" [] EmptyString) [] [] in
  sent (snd (send (PyStr "abc") false w)) =
    [http_response_start 200 []; http_response_body (str_encode "abc") true].
Proof.
  intros w.
  exact (proj1 (proj2 (send_first_chunk w (PyStr "abc") [] []
                         eq_refl eq_refl eq_refl eq_refl eq_refl))).
Defined.

(** On a started, unfinished response a [send] adds one body chunk, and
    the final empty chunk when it finishes; headers and status code are
    left alone. *)
Theorem send_after_start (w : World) (d : pydata) (f : bool) :
  conn_type (conn w) = HTTP ->
  started (conn w) = true ->
  finished (conn w) = false ->
  let res := send d f w in
  fst res = Ok tt /\
  sent (snd res) =
    sent w ++
    http_response_body (default [] (encode_if_str d)) true
      :: (if f then [http_response_body [] false] else []) /\
  finished (conn (snd res)) = f /\
  resp_headers (conn (snd res)) = resp_headers (conn w) /\
  resp_status_code (conn (snd res)) = resp_status_code (conn w).
Proof.
  intros Ht Hs Hf. apply conn_type_HTTP_scope in Ht.
  split_world w. simpl in *. subst st fi.
  unfold_conn. simp_conn.
  repeat (rewrite conn_type_http by exact Ht; simp_conn).
  destruct f; simp_conn;
    repeat (rewrite conn_type_http by exact Ht; simp_conn);
    rewrite <- ?app_assoc; auto.
Qed.

Lemma send_after_start_witness :
  sent (snd (send (PyStr "b") true started_world)) =
    sent started_world ++
    [http_response_body (str_encode "b") true; http_response_body [] false].
Proof.
  exact (proj1 (proj2 (send_after_start started_world (PyStr "b") true
                         eq_refl eq_refl eq_refl))).
Defined.

(** On a websocket connection [send] and [finish] raise
    [NotImplementedError] and [body_iter] raises [ValueError]; nothing is
    sent and the connection is left as it was. *)
Theorem websocket_not_implemented (w : World) (d : pydata) (f : bool) :
  scope_type (scope (conn w)) = Some "websocket" ->
  (finished (conn w) = false -> send d f w = (Raise NotImplementedError, w)) /\
  finish w = (Raise NotImplementedError, w) /\
  body_iter w = ([], Raise (ValueError "connection type is not HTTP"), w).
Proof.
  intros H. apply conn_type_websocket in H.
  unfold send, finish, body_iter, bind, get_conn, raise. cbn [conn].
  rewrite H. repeat split. now intros ->.
Qed.

Lemma websocket_not_implemented_witness :
  let w := new_world websocket_scope [] [] in
  send (PyStr "hi") true w = (Raise NotImplementedError, w) /\
  finish w = (Raise NotImplementedError, w).
Proof.
  intros w.
  destruct (websocket_not_implemented w (PyStr "hi") true eq_refl) as (Hs & Hf & _).
  split; [exact (Hs eq_refl)|exact Hf].
Defined.

(** ** The messages given to the server follow the protocol *)

Ltac crunch :=
  repeat (simp_conn;
          match goal with
          | |- context [conn_type ?c] => destruct (conn_type c)
          | |- context [match encode_headers ?h with _ => _ end] =>
              destruct (encode_headers h)
          | |- context [match encode_cookies ?h with _ => _ end] =>
              destruct (encode_cookies h)
          | |- context [if status_unset ?s then _ else _] =>
              destruct (status_unset s)
          end).

Ltac shape := repeat (first [assumption | constructor]).

Lemma shape_idle_inv (l : list asgi_out) : trace_shape false false l -> l = [].
Proof. now inversion 1. Qed.

Lemma shape_finished_started (s : bool) (l : list asgi_out) :
  trace_shape s true l -> s = true.
Proof. now inversion 1. Qed.

Lemma send_conforms (d : pydata) (f : bool) (w : World) :
  conforms w -> conforms (snd (send d f w)).
Proof.
  split_world w. unfold conforms. cbn [conn started finished sent]. intros H.
  destruct fi.
  - unfold send, bind, get_conn, raise. exact H.
  - destruct st, f, d; unfold_conn; crunch; shape.
Qed.

Lemma finish_conforms (w : World) : conforms w -> conforms (snd (finish w)).
Proof.
  split_world w. unfold conforms. cbn [conn started finished sent]. intros H.
  destruct fi, st; unfold_conn; crunch; shape.
Qed.

Lemma start_resp_conforms (w : World) : conforms w -> conforms (snd (start_resp w)).
Proof.
  split_world w. unfold conforms. cbn [conn started finished sent]. intros H.
  destruct st.
  - exact H.
  - destruct fi; [now apply shape_finished_started in H|].
    unfold_conn; crunch; shape.
Qed.

Lemma body_iter_loop_flags (rbl : option Z) (msgs : list asgi_in) :
  forall c ys o c' rest,
    body_iter_loop rbl msgs c = (ys, o, c', rest) ->
    started c' = started c /\ finished c' = finished c /\ scope c' = scope c.
Proof.
  induction msgs as [|m msgs IH]; intros c ys o c' rest; simpl;
    destruct (http_has_more_body c); simpl;
    destruct (over_limit rbl c);
    try (intros [= <- <- <- <-]; auto).
  destruct m as [b more| |t].
  - destruct (chunk_of b) as [chunk|]; [|intros [= <- <- <- <-]; auto].
    destruct (body_iter_loop rbl msgs (record_chunk chunk (default false more) c))
      as [[[ys1 o1] c1] r1] eqn:E.
    intros [= <- <- <- <-]. apply (IH _ _ _ _ _ E).
  - intros [= <- <- <- <-]; auto.
  - apply IH.
Qed.

(** Reading the body sends nothing and touches no response flag. *)
Lemma body_iter_sends_nothing (w : World) :
  sent (snd (body_iter w)) = sent w /\
  started (conn (snd (body_iter w))) = started (conn w) /\
  finished (conn (snd (body_iter w))) = finished (conn w) /\
  heap (snd (body_iter w)) = heap w.
Proof.
  unfold body_iter. destruct (conn_type (conn w)); [|auto].
  destruct (_ && _); [auto|].
  destruct (req_body_length (conn w)) as [e|rbl]; [auto|].
  destruct (body_iter_loop rbl (inbox w) (conn w)) as [[[ys o] c'] rest] eqn:E.
  destruct (body_iter_loop_flags _ _ _ _ _ _ _ E) as (Hs & Hf & _).
  simpl. auto.
Qed.

Lemma body_snd (w : World) : snd (body w) = snd (body_iter w).
Proof. unfold body. now destruct (body_iter w) as [[ys [u|e|]] w']. Qed.

Lemma send_finished (d : pydata) (f : bool) (w : World) :
  finished (conn w) = true ->
  send d f w =
    (Raise (ValueError "No message can be sent when connection closed"), w).
Proof. intros H. unfold send, bind, get_conn, raise. now rewrite H. Qed.

(** Awaiting a bound response is a finishing send once the status code
    and the headers are in place. *)
Lemma await_bound_run (r : HttpResponse) (w : World) :
  hr_connection r = true ->
  HttpResponse_await r w =
    send (hr_body r) true
      (with_conn
         (set_resp_headers
            (resp_headers (conn w) ++ response_headers r w)
            (set_resp_status_code (Some (hr_status_code r)) (conn w)))
         w).
Proof.
  intros Hb. unfold HttpResponse_await. rewrite Hb. cbn [negb].
  unfold bind at 1. unfold modify_conn at 1.
  unfold bind at 1. rewrite await_headers_run.
  now destruct w.
Qed.

Section Protocol.

Variable Morsel_set : option string -> string -> string -> exn + string.

Lemma run_op_conforms (o : conn_op) (w : World) :
  conforms w -> conforms (run_op Morsel_set o w).
Proof.
  intros H. destruct o as [d f| | |k v|k v|s| |r]; cbn [run_op].
  - now apply send_conforms.
  - now apply finish_conforms.
  - now apply start_resp_conforms.
  - exact H.
  - unfold put_resp_cookie, bind, get_conn, modify_conn, raise. cbn [conn].
    destruct (Morsel_set _ k v); exact H.
  - exact H.
  - rewrite body_snd. unfold conforms.
    destruct (body_iter_sends_nothing w) as (-> & -> & -> & _). exact H.
  - unfold HttpResponse_await. destruct (hr_connection r); cbn [negb]; [|exact H].
    unfold bind at 1. unfold modify_conn at 1.
    unfold bind at 1. rewrite await_headers_run.
    apply send_conforms. exact H.
Qed.

(** Whatever is done with a fresh connection through these operations,
    in any order and whether they return or raise, the server is given
    nothing, or one response start followed by body chunks, closed by the
    empty final chunk exactly when the connection is finished. *)
Theorem connection_follows_protocol (ops : list conn_op) (sc : Scope)
    (msgs : list asgi_in) (h : list dict) :
  let w := run_ops Morsel_set ops (new_world sc msgs h) in
  conforms w /\
  (finished (conn w) = true ->
   exists st hs bs,
     sent w =
       http_response_start st hs
         :: map (fun b => http_response_body b true) bs
         ++ [http_response_body [] false]).
Proof.
  intros w.
  assert (Hc : conforms w).
  { subst w. unfold run_ops.
    assert (H0 : conforms (new_world sc msgs h)) by constructor.
    revert H0. generalize (new_world sc msgs h).
    induction ops as [|o ops IH]; intros w0 H0; simpl; [exact H0|].
    apply IH. now apply run_op_conforms. }
  split; [exact Hc|].
  intros Hf. unfold conforms in Hc. rewrite Hf in Hc.
  assert (Hopen : forall s f l, trace_shape s f l -> s = true -> f = false ->
            exists st hs bs,
              l = http_response_start st hs
                    :: map (fun b => http_response_body b true) bs).
  { induction 1 as [|l st hs Hl _|l b Hl IH|l Hl _]; intros Hs Hf'; try discriminate.
    - apply shape_idle_inv in Hl. subst l. now exists st, hs, [].
    - destruct (IH eq_refl eq_refl) as (st & hs & bs & ->).
      exists st, hs, (bs ++ [b]). now rewrite map_app. }
  inversion Hc as [| | |l Hl Hs Hfin Hsent].
  destruct (Hopen _ _ _ Hl eq_refl eq_refl) as (st & hs & bs & ->).
  now exists st, hs, bs.
Qed.

End Protocol.

Lemma connection_follows_protocol_witness :
  let w := run_ops plain_morsel
             [op_put_resp_header "x-a" "1"; op_send (PyStr "a") false;
              op_start_resp; op_body; op_await response_500; op_finish]
             (new_world (http_scope "/" [] EmptyString) [] []) in
  conforms w /\ finished (conn w) = true.
Proof.
  intros w. split; [|reflexivity].
  exact (proj1 (connection_follows_protocol plain_morsel _ _ [] [])).
Defined.

Section AfterFinish.

Variable Morsel_set : option string -> string -> string -> exn + string.

Lemma run_op_after_finish (o : conn_op) (w : World) :
  conforms w -> finished (conn w) = true ->
  sent (run_op Morsel_set o w) = sent w /\
  finished (conn (run_op Morsel_set o w)) = true.
Proof.
  intros Hc Hf.
  assert (Hs : started (conn w) = true).
  { unfold conforms in Hc. rewrite Hf in Hc.
    now apply shape_finished_started in Hc. }
  destruct o as [d f| | |k v|k v|s| |r]; cbn [run_op].
  - unfold send, bind, get_conn, raise. rewrite Hf. now split.
  - unfold finish, bind, get_conn, raise. rewrite Hf.
    destruct (conn_type (conn w)); now split.
  - unfold start_resp, bind, get_conn, raise. rewrite Hs. now split.
  - now split.
  - unfold put_resp_cookie, bind, get_conn, modify_conn, raise. cbn [conn].
    destruct (Morsel_set _ k v); now split.
  - now split.
  - rewrite body_snd.
    destruct (body_iter_sends_nothing w) as (-> & _ & -> & _). now split.
  - destruct (hr_connection r) eqn:Hb.
    + rewrite (await_bound_run r w Hb), send_finished by exact Hf. now split.
    + unfold HttpResponse_await. rewrite Hb. now split.
Qed.

(** [finished] is terminal: once the connection is finished, no operation
    gives the server another message or reopens the connection. *)
Theorem nothing_sent_after_finish (ops : list conn_op) (w : World) :
  conforms w ->
  finished (conn w) = true ->
  sent (run_ops Morsel_set ops w) = sent w /\
  finished (conn (run_ops Morsel_set ops w)) = true.
Proof.
  unfold run_ops. revert w.
  induction ops as [|o ops IH]; intros w Hc Hf; simpl; [auto|].
  destruct (run_op_after_finish o w Hc Hf) as [Hs Hf'].
  destruct (IH (run_op Morsel_set o w) (run_op_conforms Morsel_set o w Hc) Hf') as [-> ->].
  auto.
Qed.

End AfterFinish.

Lemma nothing_sent_after_finish_witness :
  let w := snd (send (PyStr "abc") true (new_world (http_scope "/" [] EmptyString) [] [])) in
  sent (run_ops plain_morsel
          [op_send (PyStr "more") false; op_set_status (Some 500);
           op_await response_500; op_finish] w) = sent w.
Proof.
  intros w.
  assert (Hc : conforms w).
  { unfold conforms. cbn.
    apply (shape_final [_; _]), (shape_chunk [_]), (shape_start []), shape_idle. }
  exact (proj1 (nothing_sent_after_finish plain_morsel _ w Hc eq_refl)).
Defined.

(** ** The composed application, further *)

Lemma finish_ok_finished (w : World) :
  fst (finish w) = Ok tt -> finished (conn (snd (finish w))) = true.
Proof.
  split_world w. destruct fi, st; unfold_conn; crunch;
    first [discriminate | reflexivity].
Qed.

Lemma send_finish_ok_finished (d : pydata) (w : World) :
  fst (send d true w) = Ok tt -> finished (conn (snd (send d true w))) = true.
Proof.
  split_world w. destruct fi, st, d; unfold_conn; crunch;
    first [discriminate | reflexivity].
Qed.

Lemma run_routers_returned (routers : list (M unit)) :
  forall w w', run_routers routers w = (Ok true, w') -> finished (conn w') = true.
Proof.
  induction routers as [|s rest IH]; intros w w'; simpl; [discriminate|].
  unfold bind at 1. destruct (s w) as [[[]|e|] w1]; try discriminate.
  unfold bind at 1. unfold get_conn at 1.
  destruct (finished (conn w1)) eqn:Hf; [|apply IH].
  now intros [= <-].
Qed.

(** Whenever the application returns normally, the connection is finished:
    a stage finished it, or the application did. *)
Theorem Servitor_returns_finished (routers : list (M unit)) (sc : Scope)
    (msgs : list asgi_in) (h : list dict) :
  fst (Servitor routers sc msgs h) = Ok tt ->
  finished (conn (snd (Servitor routers sc msgs h))) = true.
Proof.
  unfold Servitor, asgi_app, bind.
  destruct (run_routers routers (new_world sc msgs h)) as [[[|]|e|] w1] eqn:E;
    try discriminate.
  - intros _. eapply run_routers_returned, E.
  - unfold get_conn, modify_conn. cbn [fst snd conn].
    destruct (started (conn w1)).
    + apply finish_ok_finished.
    + apply send_finish_ok_finished.
Qed.

Lemma Servitor_returns_finished_witness :
  let sc := http_scope "/" [] EmptyString in
  fst (Servitor [stage_sends "hi"] sc [] []) = Ok tt /\
  finished (conn (snd (Servitor [stage_sends "hi"] sc [] []))) = true.
Proof.
  intros sc.
  assert (H : fst (Servitor [stage_sends "hi"] sc [] []) = Ok tt) by reflexivity.
  split; [exact H|].
  exact (Servitor_returns_finished [stage_sends "hi"] sc [] [] H).
Defined.

(** An exception raised by a stage leaves the application at once: the
    stages after it do not run and neither fallback is taken. *)
Theorem Servitor_stage_raises (pre post : list (M unit)) (s : M unit)
    (sc : Scope) (msgs : list asgi_in) (h : list dict) (w1 w2 : World) (e : exn) :
  runs_unfinished pre (new_world sc msgs h) w1 ->
  s w1 = (Raise e, w2) ->
  Servitor (pre ++ s :: post) sc msgs h = (Raise e, w2).
Proof.
  intros Hpre Hs. unfold Servitor, asgi_app. unfold bind at 1.
  rewrite (run_routers_app _ _ _ _ Hpre). simpl.
  unfold bind at 1. now rewrite Hs.
Qed.

Lemma Servitor_stage_raises_witness :
  let sc := http_scope "/" [] EmptyString in
  let w1 := snd (stage_sends "hi" (new_world sc [] [])) in
  Servitor [stage_sends "hi"; stage_raises; send (PyStr "late") true] sc [] [] =
    (Raise (OtherError "boom"), w1) /\
  finished (conn w1) = false.
Proof.
  intros sc w1. split; [|reflexivity].
  apply (Servitor_stage_raises [stage_sends "hi"] [send (PyStr "late") true]
           stage_raises sc [] [] w1 w1 (OtherError "boom")).
  - exact (runs_cons (stage_sends "hi") [] (new_world sc [] []) w1 w1
             eq_refl eq_refl (runs_nil w1)).
  - reflexivity.
Defined.

Lemma Servitor_first_stage_finishes (s : M unit) (rest : list (M unit))
    (sc : Scope) (msgs : list asgi_in) (h : list dict) (w1 : World) :
  s (new_world sc msgs h) = (Ok tt, w1) ->
  finished (conn w1) = true ->
  Servitor (s :: rest) sc msgs h = (Ok tt, w1).
Proof.
  intros Hs Hf. unfold Servitor, asgi_app. unfold bind at 1. simpl.
  unfold bind at 1. rewrite Hs.
  unfold bind at 1. unfold get_conn at 1. now rewrite Hf.
Qed.

Section Dispatch.

Variable url_match : UrlBinding -> option string -> MatchOutcome.

Lemma Router_call_NotFound_run (r : Router) (w : World) (b : UrlBinding) :
  get_url_binding_for_connection r (conn w) = Some b ->
  url_match b (scope_method (scope (conn w))) = NotFound ->
  Router_call url_match r w = send (PyBytes (str_encode "Not Found")) true w.
Proof.
  intros Hb Hm. unfold Router_call. unfold bind at 1. unfold get_conn at 1.
  now rewrite Hb, Hm.
Qed.

(** A router that finds no rule answers and finishes the exchange itself,
    so the stages placed after it never see the request and the 404
    fallback of the application is not used: the client gets status 200
    with the body [Not Found]. *)
Theorem Router_not_found_ends_dispatch (r : Router) (rest : list (M unit))
    (sc : Scope) (msgs : list asgi_in) (h : list dict) (b : UrlBinding) :
  scope_type sc <> Some "websocket" ->
  get_url_binding_for_connection r (Connection_init sc) = Some b ->
  url_match b (scope_method sc) = NotFound ->
  let res := Servitor (Router_call url_match r :: rest) sc msgs h in
  res = Router_call url_match r (new_world sc msgs h) /\
  fst res = Ok tt /\
  sent (snd res) =
    [ http_response_start 200 [(str_encode "content-length", str_encode "9")];
      http_response_body (str_encode "Not Found") true;
      http_response_body [] false ].
Proof.
  intros Hsc Hb Hm res.
  pose proof (Router_call_NotFound_run r (new_world sc msgs h) b Hb Hm) as Hrun.
  rewrite (send_finish_unstarted (new_world sc msgs h) _ [] []) in Hrun;
    try reflexivity; [|now apply conn_type_http].
  assert (E : res = Router_call url_match r (new_world sc msgs h)).
  { subst res. rewrite Hrun. now apply Servitor_first_stage_finishes. }
  rewrite E, Hrun. auto.
Qed.


(** A method-not-allowed outcome: status 405 replaces any status set
    before, and the body is empty with [content-length: 0]. *)
Theorem Router_call_method_not_allowed_sends_405 (r : Router) (w : World)
    (b : UrlBinding) (hs cs : list (bytes * bytes)) :
  get_url_binding_for_connection r (conn w) = Some b ->
  url_match b (scope_method (scope (conn w))) = MethodNotAllowed ->
  conn_type (conn w) = HTTP ->
  started (conn w) = false ->
  finished (conn w) = false ->
  encode_headers (resp_headers (conn w)) = Some hs ->
  encode_cookies (resp_cookies (conn w)) = Some cs ->
  let res := Router_call url_match r w in
  fst res = Ok tt /\
  sent (snd res) =
    sent w ++
    [ http_response_start 405
        (hs ++ [(str_encode "content-length", str_encode "0")] ++ cs);
      http_response_body [] true;
      http_response_body [] false ] /\
  resp_status_code (conn (snd res)) = Some 405 /\
  finished (conn (snd res)) = true.
Proof.
  intros Hb Hm Ht Hs Hf Hh Hc res.
  set (w1 := with_conn (set_resp_status_code (Some 405) (conn w)) w).
  assert (E : res = send (PyBytes []) true w1).
  { subst res. unfold Router_call. unfold bind at 1. unfold get_conn at 1.
    rewrite Hb, Hm. now destruct w. }
  rewrite E, (send_finish_unstarted w1 [] hs cs); subst w1; try assumption.
  cbn. auto.
Qed.

End Dispatch.

Lemma Router_not_found_ends_dispatch_witness :
  let sc := http_scope "/missing" [("host", "localhost")] EmptyString in
  sent (snd (Servitor [Router_call match_nothing Router_init;
                       send (PyStr "second stage") true] sc [] [])) =
    [ http_response_start 200 [(str_encode "content-length", str_encode "9")];
      http_response_body (str_encode "Not Found") true;
      http_response_body [] false ].
Proof.
  intros sc.
  exact (proj2 (proj2 (Router_not_found_ends_dispatch match_nothing Router_init
                         [send (PyStr "second stage") true] sc [] []
                         {| bound_map := []; server_name := Some "localhost";
                            path_info := Some "/missing"; script_name := None;
                            url_scheme := Some "http"; query_args := [] |}
                         ltac:(discriminate) eq_refl eq_refl))).
Defined.


Lemma Router_call_method_not_allowed_sends_405_witness :
  let w := new_world (http_scope "/" [("host", "localhost")] EmptyString) [] [] in
  sent (snd (Router_call match_other_method Router_init w)) =
    [ http_response_start 405 [(str_encode "content-length", str_encode "0")];
      http_response_body [] true;
      http_response_body [] false ].
Proof.
  intros w.
  exact (proj1 (proj2 (Router_call_method_not_allowed_sends_405 match_other_method
                         Router_init w
                         {| bound_map := []; server_name := Some "localhost";
                            path_info := Some "/"; script_name := None;
                            url_scheme := Some "http"; query_args := [] |}
                         [] [] eq_refl eq_refl eq_refl eq_refl eq_refl eq_refl eq_refl))).
Defined.

(** ** Responses, further *)



Lemma dict_setitem_twice (k v : string) (d : dict) :
  dict_setitem k v (dict_setitem k v d) = dict_setitem k v d.
Proof.
  induction d as [|[k' v'] d IH]; simpl.
  - now rewrite String.eqb_refl.
  - destruct (String.eqb k k') eqn:E; simpl; rewrite E; [reflexivity|].
    now rewrite IH.
Qed.

Lemma dict_get_setitem_eq (k v : string) (d : dict) :
  dict_get k (dict_setitem k v d) = Some v.
Proof.
  induction d as [|[k' v'] d IH]; simpl.
  - now rewrite String.eqb_refl.
  - destruct (String.eqb k k') eqn:E; simpl; now rewrite E.
Qed.

(** A [JsonResponse] built with a [headers] dictionary writes
    [content-type] into that very dictionary: the caller's object is
    changed in place (its own [content-type] entry is overwritten, the
    other dictionaries are untouched), the response refers to it, nothing
    is sent, and building a second response with the same dictionary
    changes it no further. *)
Theorem JsonResponse_mutates_caller_headers (Json : Type)
    (dumps : Json -> string) (data : Json) (connection : bool)
    (status : option Z) (w : World) (l : nat) (d : dict) :
  heap w !! l = Some d ->
  let kw := {| kw_status_code := status; kw_headers := Some (Some l) |} in
  let d' := dict_setitem "content-type" "application/json" d in
  exists resp w',
    JsonResponse_init dumps data connection kw w = (Ok resp, w') /\
    hr_headers resp = Some l /\
    heap w' !! l = Some d' /\
    dict_get "content-type" d' = Some "application/json" /\
    (forall l', l' <> l -> heap w' !! l' = heap w !! l') /\
    conn w' = conn w /\ sent w' = sent w /\
    snd (JsonResponse_init dumps data connection kw w') = w'.
Proof.
  intros Hl kw d'.
  exists (HttpResponse_init (PyStr (dumps data)) connection kw),
         (with_heap (alter (dict_setitem "content-type" "application/json") l (heap w)) w).
  assert (Hh : alter (dict_setitem "content-type" "application/json") l (heap w) !! l
               = Some d') by (now rewrite list_lookup_alter_eq, Hl).
  split; [reflexivity|]. split; [reflexivity|]. split; [exact Hh|].
  split; [apply dict_get_setitem_eq|].
  split; [intros l' Hne; cbn [heap with_heap]; now apply list_lookup_alter_ne|].
  split; [reflexivity|]. split; [reflexivity|].
  cbn. unfold with_heap. cbn. f_equal.
  apply list_eq. intros j. destruct (decide (j = l)) as [->|Hne].
  - rewrite list_lookup_alter_eq. cbn in Hh. rewrite Hh. cbn.
    unfold d'. now rewrite dict_setitem_twice.
  - now rewrite list_lookup_alter_ne by congruence.
Qed.

Lemma JsonResponse_mutates_caller_headers_witness :
  let w := new_world (http_scope "/" [] EmptyString) []
             [[("content-type", "text/plain"); ("x-trace", "1")]] in
  let kw := {| kw_status_code := None; kw_headers := Some (Some 0%nat) |} in
  exists resp w',
    JsonResponse_init dumps_hello tt true kw w = (Ok resp, w') /\
    heap w' !! 0%nat = Some [("content-type", "application/json"); ("x-trace", "1")].
Proof.
  intros w kw.
  destruct (JsonResponse_mutates_caller_headers unit dumps_hello tt true None w 0%nat
              [("content-type", "text/plain"); ("x-trace", "1")] eq_refl)
    as (resp & w' & H1 & _ & H3 & _).
  exists resp, w'. split; [exact H1|exact H3].
Defined.

(** ** Route registration, further *)

Section Registration.

Variable Rule_error : string -> option exn.

Lemma add_route_effect (rs : string) (h : Handler) (name : option string)
    (m : option (gset string)) (r r' : Router) :
  add_route Rule_error rs h name m r = inr r' ->
  exists n,
    n = match name with
        | Some x => if String.eqb x EmptyString then handler_name h else x
        | None => handler_name h
        end /\
    (forall e, endpoint_to_handler r !! n = Some e -> handler_id e = handler_id h) /\
    url_map r' = url_map r ++ [{| rule_string := rs; endpoint := n; methods := m |}] /\
    endpoint_to_handler r' = <[n := h]> (endpoint_to_handler r).
Proof.
  unfold add_route.
  set (n := match name with
            | Some x => if String.eqb x EmptyString then handler_name h else x
            | None => handler_name h
            end).
  destruct (endpoint_to_handler r !! n) as [e|] eqn:El.
  - unfold handler_is. destruct (Nat.eqb_spec (handler_id e) (handler_id h)) as [E|E];
      cbn [negb]; [|discriminate].
    destruct (Rule_error rs); [discriminate|]. intros [= <-].
    exists n. split; [reflexivity|]. split; [|split; reflexivity].
    intros e' He'. rewrite El in He'. now injection He' as <-.
  - destruct (Rule_error rs); [discriminate|]. intros [= <-].
    exists n. split; [reflexivity|]. split; [|split; reflexivity].
    intros e' He'. rewrite El in He'. discriminate.
Qed.

(** Registration keeps the router consistent: if every rule of the pattern
    map names an endpoint that has a handler, this is still so after a
    successful [add_route]; the empty router is consistent. *)
Theorem add_route_keeps_routes_resolved (rs : string) (h : Handler)
    (name : option string) (m : option (gset string)) (r r' : Router) :
  routes_resolved r ->
  add_route Rule_error rs h name m r = inr r' ->
  routes_resolved Router_init /\ routes_resolved r'.
Proof.
  intros Hr Ha. split; [intros rule []|].
  destruct (add_route_effect _ _ _ _ _ _ Ha) as (n & _ & _ & Hu & He).
  intros rule Hin. rewrite Hu in Hin. rewrite He.
  apply in_app_or in Hin. destruct Hin as [Hin|[<-|[]]].
  - destruct (decide (n = endpoint rule)) as [->|Hne].
    + rewrite lookup_insert_eq. eauto.
    + rewrite lookup_insert_ne by exact Hne. now apply Hr.
  - cbn. rewrite lookup_insert_eq. eauto.
Qed.

(** A name, once bound, stays bound to the same handler: a successful
    [add_route] appends exactly one rule and replaces no handler by
    another one. *)
Theorem add_route_keeps_bindings (rs : string) (h : Handler)
    (name : option string) (m : option (gset string)) (r r' : Router) :
  add_route Rule_error rs h name m r = inr r' ->
  (exists rule, url_map r' = url_map r ++ [rule] /\ rule_string rule = rs
                /\ methods rule = m) /\
  (forall n h0, endpoint_to_handler r !! n = Some h0 ->
     exists h1, endpoint_to_handler r' !! n = Some h1 /\
                handler_id h1 = handler_id h0).
Proof.
  intros Ha.
  destruct (add_route_effect _ _ _ _ _ _ Ha) as (n & _ & Hid & Hu & He).
  split; [eexists; split; [exact Hu|split; reflexivity]|].
  intros n0 h0 Hl. rewrite He.
  destruct (decide (n = n0)) as [->|Hne].
  - rewrite lookup_insert_eq. exists h. split; [reflexivity|].
    symmetry. now apply Hid.
  - rewrite lookup_insert_ne by exact Hne. eauto.
Qed.

(** Registered without a name, a handler goes under its [__name__]: a
    second function with the same [__name__] cannot be registered without
    a name of its own. *)
Theorem add_route_same_function_name (rs1 rs2 : string) (A B : Handler)
    (m1 m2 : option (gset string)) (r r1 : Router) :
  add_route Rule_error rs1 A None m1 r = inr r1 ->
  handler_name B = handler_name A ->
  handler_id B <> handler_id A ->
  endpoint_to_handler r1 !! handler_name A = Some A /\
  add_route Rule_error rs2 B None m2 r1 =
    inl (ValueError (String.append "Duplicated route name: " (handler_name A))).
Proof.
  intros Ha Hn Hid.
  destruct (add_route_effect _ _ _ _ _ _ Ha) as (n & -> & _ & _ & He).
  assert (Hl : endpoint_to_handler r1 !! handler_name A = Some A)
    by (rewrite He; apply lookup_insert_eq).
  split; [exact Hl|].
  unfold add_route. rewrite Hn, Hl. unfold handler_is.
  destruct (Nat.eqb_spec (handler_id A) (handler_id B)) as [E|_];
    [now contradict Hid|reflexivity].
Qed.

(** [route] adds [OPTIONS] to a non-empty list of methods and to nothing
    else: with no [methods] the rule is unrestricted, and an empty list
    stays empty. *)
Theorem route_adds_OPTIONS (rule : string) (l : list string)
    (name : option string) (h : Handler) (r : Router) :
  route Rule_error rule None name h r = add_route Rule_error rule h name None r /\
  route Rule_error rule (Some []) name h r =
    add_route Rule_error rule h name (Some ∅) r /\
  (l <> [] ->
   route Rule_error rule (Some l) name h r =
     add_route Rule_error rule h name (Some (list_to_set l ∪ {["OPTIONS"]})) r).
Proof.
  split; [reflexivity|]. split; [reflexivity|].
  intros Hl. unfold route. f_equal.
  assert (Hne : (list_to_set l : gset string) ≠ ∅).
  { destruct l as [|x l]; [contradiction|]. set_solver. }
  rewrite (bool_decide_eq_true_2 _ Hne). cbn [andb].
  destruct (decide ("OPTIONS" ∈ (list_to_set l : gset string))) as [Hin|Hin].
  - rewrite (bool_decide_eq_true_2 _ Hin). cbn [negb]. f_equal.
    apply set_eq. intros x. rewrite elem_of_union, elem_of_singleton.
    split; [auto|]. intros [Hx| ->]; assumption.
  - rewrite (bool_decide_eq_false_2 _ Hin). reflexivity.
Qed.

End Registration.

Lemma add_route_keeps_routes_resolved_witness :
  let A := sample_handler 0 "hello" in
  exists r', add_route accept_all_rules "/a" A None None Router_init = inr r' /\
             routes_resolved r'.
Proof.
  intros A.
  eexists. split; [reflexivity|].
  refine (proj2 (add_route_keeps_routes_resolved accept_all_rules "/a" A None None
                   Router_init _ _ eq_refl)).
  intros rule [].
Defined.

Lemma add_route_keeps_bindings_witness :
  let A := sample_handler 0 "a" in
  let B := sample_handler 1 "b" in
  let r := {| url_map := [{| rule_string := "/a"; endpoint := "a"; methods := None |}];
              endpoint_to_handler := <["a" := A]> ∅ |} in
  exists r', add_route accept_all_rules "/b" B None None r = inr r' /\
             exists h1, endpoint_to_handler r' !! "a" = Some h1 /\
                        handler_id h1 = 0%nat.
Proof.
  intros A B r.
  eexists. split; [reflexivity|].
  exact (proj2 (add_route_keeps_bindings accept_all_rules "/b" B None None r _ eq_refl)
           "a" A eq_refl).
Defined.

Lemma add_route_same_function_name_witness :
  let A := sample_handler 0 "index" in
  let B := sample_handler 1 "index" in
  let r1 := {| url_map := [{| rule_string := "/a"; endpoint := "index"; methods := None |}];
               endpoint_to_handler := <["index" := A]> ∅ |} in
  add_route accept_all_rules "/b" B None None r1 =
    inl (ValueError "Duplicated route name: index").
Proof.
  intros A B r1.
  exact (proj2 (add_route_same_function_name accept_all_rules "/a" "/b" A B None None
                  Router_init r1 eq_refl eq_refl ltac:(discriminate))).
Defined.

Lemma route_adds_OPTIONS_witness :
  let A := sample_handler 0 "index" in
  route accept_all_rules "/" (Some ["GET"]) None A Router_init =
    add_route accept_all_rules "/" A None (Some ({["GET"]} ∪ ∅ ∪ {["OPTIONS"]}))
      Router_init.
Proof.
  intros A.
  exact (proj2 (proj2 (route_adds_OPTIONS accept_all_rules "/" ["GET"] None A
                         Router_init)) ltac:(discriminate)).
Defined.

(** ** Dispatch to a handler *)

Section Handlers.

Variable url_match : UrlBinding -> option string -> MatchOutcome.

Lemma Router_call_matched (r : Router) (w : World) (b : UrlBinding)
    (rule : Rule) (args : list (string * string)) (handler : Handler) :
  get_url_binding_for_connection r (conn w) = Some b ->
  url_match b (scope_method (scope (conn w))) = Matched rule args ->
  endpoint_to_handler r !! endpoint rule = Some handler ->
  Router_call url_match r w =
    (let* res := handler_call handler args in
     match res with
     | Some resp => HttpResponse_await (bound_to_connection resp)
     | None => ret tt
     end) w.
Proof.
  intros Hb Hm Hl. unfold Router_call. unfold bind at 1. unfold get_conn at 1.
  now rewrite Hb, Hm, Hl.
Qed.

(** On a router kept consistent by registration, a matched rule of its
    pattern map always has its handler: the lookup raises no [KeyError],
    the handler runs on the matched variables, a response it returns is
    bound to the connection before it is awaited, and when it returns
    nothing the router does nothing more. *)
Theorem Router_call_finds_handler (r : Router) (w : World) (b : UrlBinding)
    (rule : Rule) (args : list (string * string)) :
  routes_resolved r ->
  get_url_binding_for_connection r (conn w) = Some b ->
  url_match b (scope_method (scope (conn w))) = Matched rule args ->
  In rule (url_map r) ->
  exists handler,
    endpoint_to_handler r !! endpoint rule = Some handler /\
    (forall w1, handler_call handler args w = (Ok None, w1) ->
                Router_call url_match r w = (Ok tt, w1)) /\
    (forall resp w1, handler_call handler args w = (Ok (Some resp), w1) ->
                     Router_call url_match r w =
                       HttpResponse_await (bound_to_connection resp) w1) /\
    (forall e w1, handler_call handler args w = (Raise e, w1) ->
                  Router_call url_match r w = (Raise e, w1)).
Proof.
  intros Hr Hb Hm Hin. destruct (Hr rule Hin) as [handler Hl].
  exists handler. split; [exact Hl|].
  rewrite (Router_call_matched r w b rule args handler Hb Hm Hl).
  unfold bind. repeat split; intros; now rewrite H.
Qed.

End Handlers.

Lemma Router_call_finds_handler_witness :
  let A := handler_sends 0 "index" "hi" in
  let rule := {| rule_string := "/"; endpoint := "index"; methods := None |} in
  let r := {| url_map := [rule]; endpoint_to_handler := <["index" := A]> ∅ |} in
  let w := new_world (http_scope "/" [] EmptyString) [] [] in
  exists handler,
    endpoint_to_handler r !! "index" = Some handler /\
    Router_call (fun _ _ => Matched rule []) r w = (Ok tt, snd (send (PyStr "hi") true w)).
Proof.
  intros A rule r w.
  assert (Hr : routes_resolved r).
  { intros x [<-|[]]. cbn. rewrite lookup_insert_eq. eauto. }
  destruct (Router_call_finds_handler (fun _ _ => Matched rule []) r w
              {| bound_map := [rule]; server_name := None; path_info := Some "/";
                 script_name := None; url_scheme := Some "http"; query_args := [] |}
              rule [] Hr eq_refl eq_refl (or_introl eq_refl))
    as (handler & Hl & Hnone & _).
  exists handler. split; [exact Hl|].
  apply Hnone.
  cbn in Hl. rewrite lookup_insert_eq in Hl. injection Hl as <-.
  reflexivity.
Defined.

(** ** The example server *)

Section MainProperties.

Variable Json : Type.
Variable json_dumps : Json -> string.
Variable hello_object : string -> Json.
Variable Rule_error : string -> option exn.
Variable url_match : UrlBinding -> option string -> MatchOutcome.

(** The example server end to end. When the routing library accepts the
    rule, the router of main.py holds the one rule [/hello/<name>] under
    the endpoint [hello]; a request matched to it with the variable
    [name] is answered with status 200 and the JSON text of
    [{'hello': name}], the only header being [content-length]. *)
Theorem main_app_says_hello :
  Rule_error "/hello/<name>" = None ->
  exists router,
    main_router Json json_dumps hello_object Rule_error = inr router /\
    url_map router = [hello_rule] /\
    forall sc msgs h b rule n,
      scope_type sc <> Some "websocket" ->
      get_url_binding_for_connection router (Connection_init sc) = Some b ->
      url_match b (scope_method sc) = Matched rule [("name", n)] ->
      endpoint rule = "hello" ->
      let body_ := str_encode (json_dumps (hello_object n)) in
      let res := main_app url_match router sc msgs h in
      fst res = Ok tt /\
      sent (snd res) =
        [ http_response_start 200 [content_length_pair body_];
          http_response_body body_ true;
          http_response_body [] false ].
Proof.
  intros HR.
  set (hello_ := hello Json json_dumps hello_object).
  exists {| url_map := [hello_rule];
            endpoint_to_handler := <["hello" := hello_]> ∅ |}.
  split.
  { unfold main_router, route, add_route, Router_init. fold hello_.
    cbn [handler_name hello_ hello endpoint_to_handler url_map].
    rewrite lookup_empty, HR. reflexivity. }
  split; [reflexivity|].
  intros sc msgs h b rule n Hsc Hb Hm He body_ res.
  set (router := {| url_map := [hello_rule];
                    endpoint_to_handler := <["hello" := hello_]> ∅ |}) in *.
  set (w0 := new_world sc msgs h).
  set (resp := HttpResponse_init (PyStr (json_dumps (hello_object n))) false no_kwargs).
  set (w1 := with_heap
               (alter (dict_setitem "content-type" "application/json")
                  (List.length h) (h ++ [[]])) w0).
  assert (Hl : endpoint_to_handler router !! endpoint rule = Some hello_)
    by (rewrite He; apply lookup_insert_eq).
  assert (Hrun : Router_call url_match router w0
                 = HttpResponse_await (bound_to_connection resp) w1).
  { rewrite (Router_call_matched url_match router w0 b rule _ hello_ Hb Hm Hl).
    reflexivity. }
  destruct (HttpResponse_await_unstarted (bound_to_connection resp) w1 body_ [] [])
    as (H1 & H2 & _ & H4); try reflexivity.
  { now apply conn_type_http. }
  cbv zeta in H1, H2, H4.
  assert (Hs : Router_call url_match router w0
               = (Ok tt, snd (HttpResponse_await (bound_to_connection resp) w1))).
  { rewrite Hrun, <- H1. now destruct (HttpResponse_await _ w1). }
  assert (E : res = (Ok tt, snd (HttpResponse_await (bound_to_connection resp) w1))).
  { subst res. unfold main_app.
    apply Servitor_first_stage_finishes; [exact Hs|exact H4]. }
  rewrite E. split; [reflexivity|]. cbn [snd]. rewrite H2. reflexivity.
Qed.

End MainProperties.

Lemma main_app_says_hello_witness :
  let sc := http_scope "/hello/world" [("host", "localhost")] EmptyString in
  exists router,
    main_router string dumps_hello_name (fun n => n) accept_all_rules = inr router /\
    sent (snd (main_app match_hello_world router sc [] [])) =
      [ http_response_start 200 [(str_encode "content-length", str_encode "18")];
        http_response_body (str_encode hello_world_text) true;
        http_response_body [] false ].
Proof.
  intros sc.
  destruct (main_app_says_hello string dumps_hello_name (fun n => n) accept_all_rules
              match_hello_world eq_refl) as (router & Hr & Hu & Happ).
  exists router. split; [exact Hr|].
  injection Hr as <-.
  exact (proj2 (Happ sc [] []
                  {| bound_map := [hello_rule]; server_name := Some "localhost";
                     path_info := Some "/hello/world"; script_name := None;
                     url_scheme := Some "http"; query_args := [] |}
                  hello_rule "world" ltac:(discriminate) eq_refl eq_refl eq_refl)).
Defined.

(** ** Reading the request body, further *)

Lemma body_iter_loop_done (rbl : option Z) (msgs : list asgi_in) (c : Connection) :
  http_has_more_body c = false ->
  body_iter_loop rbl msgs c = ([], Ok tt, c, msgs).
Proof. intros H. destruct msgs; simpl; now rewrite H. Qed.

(** What one run of the loop does to the buffer, the counter and the
    more-body flag. *)
Lemma body_iter_loop_buffer (rbl : option Z) (msgs : list asgi_in) :
  forall c ys o c' rest,
    body_iter_loop rbl msgs c = (ys, o, c', rest) ->
    http_body c' = http_body c ++ concat ys /\
    http_received_body_length c' =
      (http_received_body_length c + List.length (concat ys))%nat /\
    (o = Ok tt -> http_has_more_body c' = false) /\
    (o <> Ok tt -> http_has_more_body c' = true).
Proof.
  induction msgs as [|m msgs IH]; intros c ys o c' rest; simpl;
    destruct (http_has_more_body c) eqn:Hm; simpl;
    destruct (over_limit rbl c);
    try (intros [= <- <- <- <-]; simpl; rewrite app_nil_r, Nat.add_0_r;
         repeat split; congruence).
  destruct m as [b more| |t].
  - destruct (chunk_of b) as [chunk|];
      [|intros [= <- <- <- <-]; simpl; rewrite app_nil_r, Nat.add_0_r;
        repeat split; congruence].
    destruct (body_iter_loop rbl msgs (record_chunk chunk (default false more) c))
      as [[[ys1 o1] c1] r1] eqn:E.
    intros [= <- <- <- <-].
    destruct (IH _ _ _ _ _ E) as (Hb & Hr & Hok & Hno).
    simpl in Hb, Hr. rewrite Hb, Hr. simpl. rewrite length_app, <- app_assoc.
    repeat split; [lia|assumption|assumption].
  - intros [= <- <- <- <-]; simpl; rewrite app_nil_r, Nat.add_0_r;
      repeat split; congruence.
  - apply IH.
Qed.

Lemma req_body_length_scope (c c' : Connection) :
  scope c' = scope c -> req_body_length c' = req_body_length c.
Proof. intros H. unfold req_body_length, req_headers. now rewrite H. Qed.

Lemma conn_type_scope (c c' : Connection) :
  scope c' = scope c -> conn_type c' = conn_type c.
Proof. intros H. unfold conn_type. now rewrite H. Qed.

(** [body()] can be called again once the body was read in full: the
    second call returns the same bytes from the buffer and receives
    nothing; the buffer holds exactly the bytes returned and the counter
    their number. *)
Theorem body_twice (w w' : World) (b : bytes) :
  http_received_body_length (conn w) = 0%nat ->
  http_body (conn w) = [] ->
  body w = (Ok b, w') ->
  http_body (conn w') = b /\
  http_received_body_length (conn w') = List.length b /\
  body w' = (Ok b, w').
Proof.
  intros Hr Hb. unfold body at 1, body_iter.
  destruct (conn_type (conn w)) eqn:Ht; [|discriminate].
  rewrite Hr. cbn [Nat.ltb Nat.leb andb].
  destruct (req_body_length (conn w)) as [e|rbl] eqn:El; [discriminate|].
  destruct (body_iter_loop rbl (inbox w) (conn w)) as [[[ys o] c'] rest] eqn:E.
  destruct (body_iter_loop_buffer _ _ _ _ _ _ _ E) as (Hbuf & Hlen & Hok & _).
  destruct (body_iter_loop_flags _ _ _ _ _ _ _ E) as (_ & _ & Hsc).
  rewrite Hb in Hbuf. rewrite Hr in Hlen. cbn in Hbuf, Hlen.
  destruct o as [[]| |]; try discriminate. cbn [app].
  intros [= <- <-]. cbn [conn with_inbox with_conn].
  split; [exact Hbuf|]. split; [exact Hlen|].
  unfold body, body_iter. cbn [conn with_inbox with_conn inbox].
  rewrite (conn_type_scope _ _ Hsc), Ht, (req_body_length_scope _ _ Hsc), El.
  rewrite (Hok eq_refl). rewrite andb_false_r, andb_true_r. cbn [negb].
  rewrite (body_iter_loop_done rbl rest c' (Hok eq_refl)).
  destruct (0 <? http_received_body_length c')%nat eqn:Hpos.
  - cbn. rewrite app_nil_r, Hbuf. reflexivity.
  - apply Nat.ltb_ge in Hpos.
    assert (Hz : concat ys = []) by (apply length_zero_iff_nil; lia).
    rewrite Hz. reflexivity.
Qed.

Lemma body_twice_witness :
  let w := new_world (http_scope "/" [] EmptyString)
             (two_deliveries (str_encode "ab") (str_encode "cde")) [] in
  fst (body w) = Ok (str_encode "abcde") /\
  fst (body (snd (body w))) = Ok (str_encode "abcde").
Proof.
  intros w. split; [reflexivity|].
  destruct (body_twice w (snd (body w)) (str_encode "abcde") eq_refl eq_refl eq_refl)
    as (_ & _ & H).
  now rewrite H.
Defined.

(** A body read that stopped before the end (an exception, or no message
    left) after bytes were received cannot be taken up again: the next
    [body_iter()] raises at once, yields nothing and receives nothing. *)
Theorem body_iter_cannot_restart (w w' : World) (ys : list bytes) (o : outcome unit) :
  http_received_body_length (conn w) = 0%nat ->
  body_iter w = (ys, o, w') ->
  o <> Ok tt ->
  concat ys <> [] ->
  body_iter w' =
    ([], Raise (ValueError "body iter is already started and is not finished"), w').
Proof.
  intros Hr. unfold body_iter at 1.
  destruct (conn_type (conn w)) eqn:Ht; [|now intros [= <- <- <-] _ []].
  rewrite Hr. cbn [Nat.ltb Nat.leb andb].
  destruct (req_body_length (conn w)) as [e|rbl] eqn:El;
    [now intros [= <- <- <-] _ []|].
  destruct (body_iter_loop rbl (inbox w) (conn w)) as [[[ys1 o1] c'] rest] eqn:E.
  destruct (body_iter_loop_buffer _ _ _ _ _ _ _ E) as (_ & Hlen & _ & Hno).
  destruct (body_iter_loop_flags _ _ _ _ _ _ _ E) as (_ & _ & Hsc).
  cbn [app]. intros [= <- <- <-] Ho Hys.
  unfold body_iter. cbn [conn with_inbox with_conn].
  rewrite (conn_type_scope _ _ Hsc), Ht, (Hno Ho), Hlen, Hr.
  assert (Hpos : (0 <? 0 + List.length (concat ys1))%nat = true).
  { apply Nat.ltb_lt. destruct (concat ys1); [contradiction|simpl; lia]. }
  now rewrite Hpos.
Qed.

Lemma body_iter_cannot_restart_witness :
  let w := new_world (http_scope "/" [] EmptyString)
             [http_request (BodyBytes (str_encode "ab")) (Some true); http_disconnect] [] in
  snd (fst (body_iter w)) = Raise (ValueError "Disconnected") /\
  snd (fst (body_iter (snd (body_iter w)))) =
    Raise (ValueError "body iter is already started and is not finished").
Proof.
  intros w. split; [reflexivity|].
  rewrite (body_iter_cannot_restart w (snd (body_iter w)) [str_encode "ab"]
             (Raise (ValueError "Disconnected")) eq_refl eq_refl
             ltac:(discriminate) ltac:(discriminate)).
  reflexivity.
Defined.

Lemma over_limit_within (n : Z) (c : Connection) :
  Z.of_nat (http_received_body_length c) <= n -> over_limit (Some n) c = false.
Proof.
  intros H. unfold over_limit.
  destruct (n <? Z.of_nat (http_received_body_length c)) eqn:E;
    [lia|apply andb_false_r].
Qed.

Lemma body_iter_loop_within (n : Z) (msgs : list asgi_in) :
  Forall delivers_bytes msgs ->
  forall c, http_has_more_body c = true ->
    Z.of_nat (http_received_body_length c
              + List.length (concat (delivered_chunks msgs))) <= n ->
    exists o c' rest,
      body_iter_loop (Some n) msgs c = (delivered_chunks msgs, o, c', rest) /\
      (o = Ok tt \/ o = Blocked).
Proof.
  induction 1 as [|m msgs Hm _ IH]; intros c Hc Hn; cbn -[over_limit];
    rewrite Hc, over_limit_within by (simpl in Hn; lia); cbn -[over_limit].
  - eauto 6.
  - destruct m as [b more| |t]; try contradiction.
    destruct Hm as [chunk Hb]. simpl in Hb, Hn. rewrite Hb in *.
    destruct more as [[|]|]; cbn -[over_limit] in *.
    + destruct (IH (record_chunk chunk true c) eq_refl) as (o & c' & rest & -> & Ho).
      { simpl. rewrite length_app in Hn. lia. }
      eauto 6.
    + destruct msgs; cbn -[over_limit]; eauto 6.
    + destruct msgs; cbn -[over_limit]; eauto 6.
Qed.

(** No false alarm: when the chunks delivered total at most the declared
    length, [body_iter()] yields every one of them and raises nothing. *)
Theorem body_iter_within_declared_length (w : World) (n : Z) :
  conn_type (conn w) = HTTP ->
  http_received_body_length (conn w) = 0%nat ->
  http_has_more_body (conn w) = true ->
  req_body_length (conn w) = inr (Some n) ->
  Forall delivers_bytes (inbox w) ->
  Z.of_nat (List.length (concat (delivered_chunks (inbox w)))) <= n ->
  fst (fst (body_iter w)) = delivered_chunks (inbox w) /\
  (snd (fst (body_iter w)) = Ok tt \/ snd (fst (body_iter w)) = Blocked).
Proof.
  intros Ht Hr Hm Hl Hf Hn. unfold body_iter. rewrite Ht, Hr, Hm, Hl. simpl.
  destruct (body_iter_loop_within n (inbox w) Hf (conn w) Hm)
    as (o & c' & rest & -> & Ho); [rewrite Hr; simpl; lia|].
  simpl. auto.
Qed.

Lemma body_iter_within_declared_length_witness :
  let w := new_world scope_declares_3
             (two_deliveries (str_encode "ab") (str_encode "c")) [] in
  fst (fst (body_iter w)) = [str_encode "ab"; str_encode "c"].
Proof.
  intros w.
  assert (Hf : Forall delivers_bytes (inbox w)).
  { repeat constructor; simpl; eauto. }
  exact (proj1 (body_iter_within_declared_length w 3 eq_refl eq_refl eq_refl eq_refl
                  Hf ltac:(cbn; lia))).
Defined.

Lemma body_iter_loop_overread (n : Z) (msgs : list asgi_in) :
  n <> 0 ->
  forall c ys o c' rest,
    body_iter_loop (Some n) msgs c = (ys, o, c', rest) ->
    (ys <> [] ->
     Z.of_nat (http_received_body_length c
               + List.length (concat (removelast ys))) <= n) /\
    (o = Raise (ValueError "body is longer than declared") ->
     n < Z.of_nat (http_received_body_length c')).
Proof.
  intros Hn0.
  assert (Hlim : forall c, over_limit (Some n) c = false ->
                           Z.of_nat (http_received_body_length c) <= n).
  { intros c. unfold over_limit. destruct (Z.eqb_spec n 0); [contradiction|].
    cbn [negb andb]. lia. }
  assert (Hover : forall c, over_limit (Some n) c = true ->
                            n < Z.of_nat (http_received_body_length c)).
  { intros c. unfold over_limit. destruct (Z.eqb_spec n 0); [contradiction|].
    cbn [negb andb]. lia. }
  induction msgs as [|m msgs IH]; intros c ys o c' rest; cbn -[over_limit];
    destruct (http_has_more_body c) eqn:Hm; cbn -[over_limit];
    destruct (over_limit (Some n) c) eqn:Ho;
    try (intros [= <- <- <- <-]; split; [intros H; now contradict H|]; try discriminate;
         intros _; now apply Hover).
  destruct m as [b more| |t].
  - destruct (chunk_of b) as [chunk|];
      [|intros [= <- <- <- <-]; split; [intros H; now contradict H|discriminate]].
    destruct (body_iter_loop (Some n) msgs (record_chunk chunk (default false more) c))
      as [[[ys1 o1] c1] r1] eqn:E.
    intros [= <- <- <- <-].
    destruct (IH _ _ _ _ _ E) as (Hys & Hraise).
    split; [|exact Hraise].
    intros _. destruct ys1 as [|y ys1].
    + simpl. rewrite Nat.add_0_r. now apply Hlim.
    + specialize (Hys ltac:(discriminate)).
      change (removelast (chunk :: y :: ys1)) with (chunk :: removelast (y :: ys1)).
      simpl concat. rewrite length_app. simpl in Hys. lia.
  - intros [= <- <- <- <-]; split; [intros H; now contradict H|discriminate].
  - apply IH.
Qed.

(** What the length test does guarantee: with a non-zero declared length,
    a message is received only while the bytes received so far do not
    exceed the declaration, so all the chunks yielded but the last total at
    most the declared length; and the length error means that more bytes
    than declared were received. *)
Theorem body_iter_overread_bounded (w w' : World) (n : Z) (ys : list bytes)
    (o : outcome unit) :
  http_received_body_length (conn w) = 0%nat ->
  req_body_length (conn w) = inr (Some n) ->
  n <> 0 ->
  body_iter w = (ys, o, w') ->
  (ys <> [] -> Z.of_nat (List.length (concat (removelast ys))) <= n) /\
  (o = Raise (ValueError "body is longer than declared") ->
   n < Z.of_nat (http_received_body_length (conn w'))).
Proof.
  intros Hr Hl Hn. unfold body_iter.
  destruct (conn_type (conn w));
    [|intros [= <- <- <-]; split; [intros H; now contradict H|discriminate]].
  rewrite Hr, Hl. cbn [Nat.ltb Nat.leb andb app].
  destruct (body_iter_loop (Some n) (inbox w) (conn w)) as [[[ys1 o1] c'] rest] eqn:E.
  intros [= <- <- <-].
  destruct (body_iter_loop_overread n (inbox w) Hn _ _ _ _ _ E) as (Hys & Hraise).
  rewrite Hr in Hys. exact (conj Hys Hraise).
Qed.

Lemma body_iter_overread_bounded_witness :
  let w := new_world scope_declares_3
             [http_request (BodyBytes (str_encode "ab")) (Some true);
              http_request (BodyBytes (str_encode "cdef")) (Some true);
              http_request (BodyBytes (str_encode "g")) (Some false)] [] in
  fst (body_iter w) = ([str_encode "ab"; str_encode "cdef"],
                       Raise (ValueError "body is longer than declared")) /\
  Z.of_nat (List.length (str_encode "ab")) <= 3 /\
  3 < Z.of_nat (http_received_body_length (conn (snd (body_iter w)))).
Proof.
  intros w. split; [reflexivity|].
  destruct (body_iter_overread_bounded w (snd (body_iter w)) 3
              [str_encode "ab"; str_encode "cdef"]
              (Raise (ValueError "body is longer than declared"))
              eq_refl eq_refl ltac:(discriminate) eq_refl) as (Hys & Hraise).
  split; [|exact (Hraise eq_refl)].
  specialize (Hys ltac:(discriminate)). cbn in Hys. cbn. lia.
Defined.

(** A negative [content-length] makes [body_iter()] fail before it
    receives anything: the length error is raised on the first test, with
    no chunk yielded and no message taken. *)
Theorem body_iter_negative_length (w : World) (n : Z) :
  conn_type (conn w) = HTTP ->
  http_received_body_length (conn w) = 0%nat ->
  http_has_more_body (conn w) = true ->
  req_body_length (conn w) = inr (Some n) ->
  n < 0 ->
  body_iter w = ([], Raise (ValueError "body is longer than declared"), w).
Proof.
  intros Ht Hr Hm Hl Hn. unfold body_iter. rewrite Ht, Hr, Hm, Hl. simpl.
  assert (Ho : over_limit (Some n) (conn w) = true).
  { unfold over_limit. destruct (Z.eqb_spec n 0); [lia|]. cbn [negb andb]. lia. }
  assert (E : body_iter_loop (Some n) (inbox w) (conn w)
              = ([], Raise (ValueError "body is longer than declared"),
                 conn w, inbox w)).
  { destruct (inbox w); cbn -[over_limit]; now rewrite Hm, Ho. }
  rewrite E. now destruct w.
Qed.

Lemma body_iter_negative_length_witness :
  let w := new_world scope_declares_negative
             (two_deliveries (str_encode "ab") (str_encode "c")) [] in
  body_iter w = ([], Raise (ValueError "body is longer than declared"), w).
Proof.
  intros w.
  exact (body_iter_negative_length w (-1) eq_refl eq_refl eq_refl eq_refl
           ltac:(lia)).
Defined.

(** ** Headers and cookies *)







Section CookieProperties.

Variable Morsel_set : option string -> string -> string -> exn + string.


End CookieProperties.


(** ** Query parameters, further *)

Lemma plus_to_space_plain (l : bytes) :
  forallb plain_byte l = true -> plus_to_space l = l.
Proof.
  unfold plus_to_space, plain_byte. induction l as [|b l IH]; simpl; [reflexivity|].
  intros H. apply andb_true_iff in H. destruct H as [Hb Hl].
  apply andb_true_iff in Hb. destruct Hb as [_ Hp].
  destruct (Byte.eqb b "+"); [discriminate|]. now rewrite IH.
Qed.

Lemma no_percent_plain (l : bytes) :
  forallb plain_byte l = true -> existsb (Byte.eqb "%") l = false.
Proof.
  unfold plain_byte. induction l as [|b l IH]; simpl; [reflexivity|].
  intros H. apply andb_true_iff in H. destruct H as [Hb Hl].
  apply andb_true_iff in Hb. destruct Hb as [Hp _].
  destruct (Byte.eqb "%" b); [discriminate|]. now apply IH.
Qed.

Lemma MultiDict_append_getlist (k k' v : string) (d : MultiDict) :
  MultiDict_getlist k (MultiDict_append k' v d) =
    MultiDict_getlist k d ++ (if String.eqb k k' then [v] else []).
Proof.
  induction d as [|[k0 vs] d IH]; simpl.
  - destruct (String.eqb k k'); reflexivity.
  - destruct (String.eqb_spec k' k0) as [->|Hne]; simpl.
    + destruct (String.eqb k k0); [reflexivity|now rewrite app_nil_r].
    + destruct (String.eqb_spec k k0) as [->|Hne']; [|exact IH].
      destruct (String.eqb_spec k0 k') as [E|_]; [now contradict Hne|].
      now rewrite app_nil_r.
Qed.

Lemma MultiDict_fold_getlist (k : string) (pairs : list (string * string)) :
  forall d,
    MultiDict_getlist k
      (fold_left (fun d kv => MultiDict_append (fst kv) (snd kv) d) pairs d) =
    MultiDict_getlist k d
    ++ map snd (List.filter (fun kv => String.eqb k (fst kv)) pairs).
Proof.
  induction pairs as [|[k' v] pairs IH]; intros d; simpl.
  - now rewrite app_nil_r.
  - rewrite IH, MultiDict_append_getlist, <- app_assoc.
    now destruct (String.eqb k k').
Qed.

(** The values of a query parameter are those of the pairs with that
    name, in the order of the query string; [get] gives the first one. *)
Theorem query_values_in_order (c : Connection) (s : string) (k : string) :
  bytes_decode (scope_query_string (scope c)) = Some s ->
  let pairs := parse_qsl (unquote_plus (list_byte_of_string s)) in
  let values := map snd (List.filter (fun kv => String.eqb k (fst kv)) pairs) in
  exists d,
    query c = Some d /\
    MultiDict_getlist k d = values /\
    MultiDict_get k d = head values.
Proof.
  intros Hd pairs values. unfold query. rewrite Hd.
  exists (MultiDict_init pairs). split; [reflexivity|].
  assert (E : MultiDict_getlist k (MultiDict_init pairs) = values)
    by apply MultiDict_fold_getlist.
  split; [exact E|]. unfold MultiDict_get. now rewrite E.
Qed.

Lemma query_values_in_order_witness :
  let c := Connection_init (http_scope "/" [] "a=1&b=2&a=3") in
  exists d, query c = Some d /\ MultiDict_getlist "a" d = ["1"; "3"] /\
            MultiDict_get "a" d = Some "1".
Proof.
  intros c.
  exact (query_values_in_order c "a=1&b=2&a=3" "a" eq_refl).
Defined.

(** Without [%] and [+] in the query string the first decoding changes
    nothing: the parameters are those of the raw query string. *)
Theorem query_without_escapes (c : Connection) (s : string) :
  bytes_decode (scope_query_string (scope c)) = Some s ->
  forallb plain_byte (scope_query_string (scope c)) = true ->
  query c = Some (MultiDict_init (parse_qsl (scope_query_string (scope c)))).
Proof.
  intros Hd Hp. unfold query. rewrite Hd.
  unfold bytes_decode in Hd.
  destruct (forallb fst (utf8_items (scope_query_string (scope c)))); [|discriminate].
  injection Hd as <-. rewrite list_byte_of_string_of_list_byte.
  unfold unquote_plus, unquote.
  now rewrite (plus_to_space_plain _ Hp), (no_percent_plain _ Hp).
Qed.

Lemma query_without_escapes_witness :
  let c := Connection_init (http_scope "/" [] "a=1&b=2&a=3") in
  query c = Some (MultiDict_init (parse_qsl (str_encode "a=1&b=2&a=3"))).
Proof.
  intros c.
  exact (query_without_escapes c "a=1&b=2&a=3" eq_refl eq_refl).
Defined.
